(** * Open-channel flow calculator: a shallow embedding and its properties

    The Python sources under [open_channel_flow/] are embedded as Rocq
    functions.  Python floats are idealised as real numbers ([R]); the
    exceptions a Python expression can raise are kept explicit in a small
    error monad, so that "returns a value" and "raises" are different
    outcomes of the embedded functions.  The two SciPy root finders the
    sources call ([fsolve], [brentq]) are not part of the repository: they
    enter through the interface [Solvers]. *)

From Stdlib Require Import Reals Lra Lia List String Bool ZArith.
Import ListNotations.
Local Open Scope R_scope.
#[local] Set Warnings "-register-all".

(** ** Outcomes of Python code *)

Inductive exn : Type :=
| ZeroDivisionError
| ValueError
| TypeError
| KeyError
| NameError
| RuntimeError
| DomainError
| NonConvergence.

Inductive outcome (A : Type) : Type :=
| Returns (a : A)
| Raises (e : exn).
Arguments Returns {A} a.
Arguments Raises {A} e.

Definition bind {A B : Type} (m : outcome A) (k : A -> outcome B) : outcome B :=
  match m with
  | Returns a => k a
  | Raises e => Raises e
  end.

Notation "x <- m ;; k" := (bind m (fun x => k))
  (at level 61, m at next level, right associativity).

(** [try: m except: h] is Python's [try ... except: ...] with a bare
    handler: any exception of [m] is caught and [h] runs instead. *)
Definition try_except {A : Type} (m h : outcome A) : outcome A :=
  match m with
  | Returns a => Returns a
  | Raises _ => h
  end.

Definition returns {A : Type} (m : outcome A) : Prop :=
  exists a, m = Returns a.

(** ** Float operations that can fail *)

(** [a / b] on floats raises [ZeroDivisionError] when [b == 0]. *)
Definition pydiv (a b : R) : outcome R :=
  if Req_dec_T b 0 then Raises ZeroDivisionError else Returns (a / b).

(** [math.sqrt(x)] raises [ValueError] on a negative argument. *)
Definition pysqrt (x : R) : outcome R :=
  if Rlt_dec x 0 then Raises ValueError else Returns (sqrt x).

(** [x ** a] for a positive, non-integer float exponent [a].  On a negative
    base Python yields a complex number, which no caller in these sources
    can compare or store; that case is recorded as a [TypeError]. *)
Definition pypow (x a : R) : outcome R :=
  if Rlt_dec 0 x then Returns (Rpower x a)
  else if Req_dec_T x 0 then Returns 0
  else Raises TypeError.

(** Floats that may be [float('inf')]. *)
Inductive xfloat : Type :=
| Fin (r : R)
| PInf.

(** Acceleration due to gravity, the module-level constant [g]. *)
Definition g : R := 981 / 100.

(** ** core/channel_geometry.py *)

Inductive ChannelSection : Type :=
| RectangularChannel (width : R)
| TrapezoidalChannel (bottom_width side_slope : R)
| CircularChannel (diameter : R)
| TriangularChannel (side_slope : R)
| CompoundChannel (bottom_section : ChannelSection) (break_depth : R)
                  (top_section : option ChannelSection)
| WideChannel.

(** [CircularChannel.radius], set by the constructor as [diameter / 2]. *)
Definition radius (diameter : R) : R := diameter / 2.

(** [CircularChannel._theta] *)
Definition _theta (diameter depth : R) : outcome R :=
  let y := depth in
  let R_ := radius diameter in
  if Rle_dec y 0 then Returns 0
  else if Rge_dec y (2 * R_) then Returns PI
  else
    q <- pydiv y R_ ;;
    let cos_theta := 1 - q in
    let cos_theta := Rmax (-1) (Rmin 1 cos_theta) in
    Returns (acos cos_theta).

Fixpoint area (c : ChannelSection) (depth : R) : outcome R :=
  match c with
  | RectangularChannel width => Returns (width * depth)
  | WideChannel => Returns (1 * depth)
  | TrapezoidalChannel bottom_width side_slope =>
      Returns ((bottom_width + side_slope * depth) * depth)
  | CircularChannel diameter =>
      theta <- _theta diameter depth ;;
      let R_ := radius diameter in
      Returns (R_ ^ 2 * (theta - sin theta * cos theta))
  | TriangularChannel side_slope => Returns (side_slope * depth ^ 2)
  | CompoundChannel bottom_section break_depth top_section =>
      if Rle_dec depth break_depth then area bottom_section depth
      else
        A_bottom <- area bottom_section break_depth ;;
        A_top <- match top_section with
                 | Some top => area top (depth - break_depth)
                 | None =>
                     A_full <- area bottom_section depth ;;
                     Returns (A_full - A_bottom)
                 end ;;
        Returns (A_bottom + A_top)
  end.

Fixpoint top_width (c : ChannelSection) (depth : R) : outcome R :=
  match c with
  | RectangularChannel width => Returns width
  | WideChannel => Returns 1
  | TrapezoidalChannel bottom_width side_slope =>
      Returns (bottom_width + 2 * side_slope * depth)
  | CircularChannel diameter =>
      theta <- _theta diameter depth ;;
      let R_ := radius diameter in
      Returns (2 * R_ * sin theta)
  | TriangularChannel side_slope => Returns (2 * side_slope * depth)
  | CompoundChannel bottom_section break_depth top_section =>
      if Rle_dec depth break_depth then top_width bottom_section depth
      else
        match top_section with
        | Some top => top_width top (depth - break_depth)
        | None => top_width bottom_section depth
        end
  end.

Fixpoint wetted_perimeter (c : ChannelSection) (depth : R) : outcome R :=
  match c with
  | RectangularChannel width => Returns (width + 2 * depth)
  | WideChannel => Returns (1 + 2 * depth)
  | TrapezoidalChannel bottom_width side_slope =>
      Returns (bottom_width + 2 * depth * sqrt (1 + side_slope ^ 2))
  | CircularChannel diameter =>
      theta <- _theta diameter depth ;;
      let R_ := radius diameter in
      Returns (2 * R_ * theta)
  | TriangularChannel side_slope =>
      Returns (2 * depth * sqrt (1 + side_slope ^ 2))
  | CompoundChannel bottom_section break_depth top_section =>
      if Rle_dec depth break_depth then wetted_perimeter bottom_section depth
      else
        match top_section with
        | Some top =>
            P_bottom <- wetted_perimeter bottom_section break_depth ;;
            P_top <- wetted_perimeter top (depth - break_depth) ;;
            T_break <- top_width bottom_section break_depth ;;
            Returns (P_bottom + P_top - T_break)
        | None => wetted_perimeter bottom_section depth
        end
  end.

(** [ChannelSection.hydraulic_radius], overridden by [WideChannel]. *)
Definition hydraulic_radius (c : ChannelSection) (depth : R) : outcome R :=
  match c with
  | WideChannel => Returns depth
  | _ =>
      A <- area c depth ;;
      P <- wetted_perimeter c depth ;;
      if Req_dec_T P 0 then Returns 0 else pydiv A P
  end.

(** [ChannelSection.hydraulic_depth] *)
Definition hydraulic_depth (c : ChannelSection) (depth : R) : outcome R :=
  A <- area c depth ;;
  T <- top_width c depth ;;
  if Req_dec_T T 0 then Returns 0 else pydiv A T.

(** [CircularChannel.centroid_distance] *)
Definition centroid_distance (diameter depth : R) : outcome R :=
  theta <- _theta diameter depth ;;
  let R_ := radius diameter in
  if Req_dec_T theta 0 then Returns 0
  else
    let numerator := (2 / 3) * (sin theta) ^ 3 in
    let denominator := theta - (1 / 2) * sin (2 * theta) in
    if Req_dec_T denominator 0 then Returns 0
    else pydiv (R_ * numerator) denominator.

(** ** calculations/flow_calculations.py *)

(** [manning_velocity]: [(1.0 / n) * (R ** (2/3)) * (S ** 0.5)] *)
Definition manning_velocity (R_ S n : R) : outcome R :=
  inv_n <- pydiv 1 n ;;
  p <- pypow R_ (2 / 3) ;;
  s <- pypow S (1 / 2) ;;
  Returns (inv_n * p * s).

(** [chezy_velocity]: [C * math.sqrt(R * S)] *)
Definition chezy_velocity (R_ S C : R) : outcome R :=
  s <- pysqrt (R_ * S) ;;
  Returns (C * s).

Definition manning_discharge (channel : ChannelSection) (depth S n : R)
  : outcome R :=
  A <- area channel depth ;;
  R_ <- hydraulic_radius channel depth ;;
  V <- manning_velocity R_ S n ;;
  Returns (A * V).

Definition chezy_discharge (channel : ChannelSection) (depth S C : R)
  : outcome R :=
  A <- area channel depth ;;
  R_ <- hydraulic_radius channel depth ;;
  V <- chezy_velocity R_ S C ;;
  Returns (A * V).

(** *** The SciPy root finders

    [fsolve f x0] yields the final iterate together with MINPACK's status
    flag [ier] ([ier = 1] means "converged"); without [full_output] the
    caller sees the iterate only, and a failed iteration is a warning, not
    an exception.  [brentq f a b] yields a root in the bracket.  Only what
    the documentation of the two routines states is assumed:
    - [fsolve] raises nothing of its own when the function never raises;
    - started on an exact zero, [fsolve] stops there with [ier = 1]
      (MINPACK's [hybrd] tests [fnorm == 0] after its first step);
    - [brentq] raises [ValueError] when [f(a)] and [f(b)] have the same
      sign. *)
Record Solvers : Type := {
  fsolve : (R -> outcome R) -> R -> outcome (R * Z);
  brentq : (R -> outcome R) -> R -> R -> outcome R;
  fsolve_total :
    forall f x0, (forall x, returns (f x)) -> returns (fsolve f x0);
  fsolve_at_root :
    forall f x0, (forall x, returns (f x)) -> f x0 = Returns 0 ->
                 fsolve f x0 = Returns (x0, 1%Z);
  brentq_same_sign :
    forall f a b fa fb, f a = Returns fa -> f b = Returns fb ->
                        0 < fa * fb -> brentq f a b = Raises ValueError
}.

(** The residual closure [equation] of [normal_depth_manning]. *)
Definition normal_depth_manning_equation
    (channel : ChannelSection) (Q S n : R) (y : R) : outcome R :=
  if Rle_dec y 0 then Returns 10000000000
  else
    Q_calc <- manning_discharge channel y S n ;;
    Returns (Q_calc - Q).

Definition normal_depth_manning (sv : Solvers) (channel : ChannelSection)
    (Q S n initial_guess max_depth : R) : outcome R :=
  let equation := normal_depth_manning_equation channel Q S n in
  let rest :=
    try_except
      (y_n <- brentq sv equation (1 / 1000) max_depth ;; Returns y_n)
      (result <- fsolve sv equation (max_depth / 2) ;;
       Returns (Rabs (fst result))) in
  match fsolve sv equation initial_guess with
  | Returns result =>
      if Z.eq_dec (snd result) 1 then
        if Rlt_dec 0 (fst result) then Returns (fst result) else rest
      else rest
  | Raises _ => rest
  end.

(** The residual closure [equation] of [normal_depth_chezy]. *)
Definition normal_depth_chezy_equation
    (channel : ChannelSection) (Q S C : R) (y : R) : outcome R :=
  if Rle_dec y 0 then Returns 10000000000
  else
    Q_calc <- chezy_discharge channel y S C ;;
    Returns (Q_calc - Q).

Definition normal_depth_chezy (sv : Solvers) (channel : ChannelSection)
    (Q S C initial_guess max_depth : R) : outcome R :=
  let equation := normal_depth_chezy_equation channel Q S C in
  try_except
    (y_n <- brentq sv equation (1 / 1000) max_depth ;; Returns y_n)
    (result <- fsolve sv equation initial_guess ;;
     Returns (Rabs (fst result))).

Definition froude_number (channel : ChannelSection) (depth Q : R)
  : outcome xfloat :=
  A <- area channel depth ;;
  if Req_dec_T A 0 then Returns (Fin 0)
  else
    V <- pydiv Q A ;;
    D <- hydraulic_depth channel depth ;;
    if Req_dec_T D 0 then Returns PInf
    else
      s <- pysqrt (g * D) ;;
      Fr <- pydiv V s ;;
      Returns (Fin Fr).

(** ** calculations/hydraulic_jump.py *)

Definition sequent_depth_rectangular (y1 Q width : R) : outcome R :=
  let A1 := width * y1 in
  V1 <- pydiv Q A1 ;;
  s <- pysqrt (g * y1) ;;
  Fr1 <- pydiv V1 s ;;
  r <- pysqrt (1 + 8 * Fr1 ^ 2) ;;
  Returns ((y1 / 2) * (-1 + r)).

(** The closure [momentum] of [sequent_depth_general]: the centroid depth
    is approximated by half the hydraulic depth. *)
Definition momentum (channel : ChannelSection) (Q y : R) : outcome R :=
  if Rle_dec y 0 then Returns 0
  else
    A <- area channel y ;;
    if Req_dec_T A 0 then Returns 0
    else
      D <- hydraulic_depth channel y ;;
      let y_bar := D / 2 in
      m <- pydiv (Q ^ 2) (g * A) ;;
      Returns (m + A * y_bar).

(** The closure [equation] shared by the sequent-depth searches: the
    momentum residual, with a large penalty outside the admissible depths. *)
Definition jump_equation (mom : R -> outcome R) (M1 : R) (y2 : R)
  : outcome R :=
  if Rle_dec y2 0 then Returns 10000000000
  else
    M2 <- mom y2 ;;
    Returns (M2 - M1).

Definition sequent_depth_general (sv : Solvers) (channel : ChannelSection)
    (y1 Q : R) (initial_guess : option R) : outcome R :=
  M1 <- momentum channel Q y1 ;;
  initial_guess <-
    match initial_guess with
    | Some guess => Returns guess
    | None =>
        A1 <- area channel y1 ;;
        T1 <- top_width channel y1 ;;
        if Rlt_dec 0 T1 then
          let equiv_width := T1 in
          equiv_y1 <- pydiv A1 T1 ;;
          y2_guess <- sequent_depth_rectangular equiv_y1 Q equiv_width ;;
          Returns y2_guess
        else Returns (y1 * 2)
    end ;;
  let equation := jump_equation (momentum channel Q) M1 in
  let rest :=
    try_except
      (if Rlt_dec y1 initial_guess
       then brentq sv equation (y1 * (101 / 100)) (y1 * 10)
       else brentq sv equation (1 / 1000) (y1 * (99 / 100)))
      (result <- fsolve sv equation initial_guess ;;
       Returns (Rabs (fst result))) in
  match fsolve sv equation initial_guess with
  | Returns result =>
      if Z.eq_dec (snd result) 1 then Returns (Rabs (fst result)) else rest
  | Raises _ => rest
  end.

(** The closure [momentum_circular] of [sequent_depth_circular]. *)
Definition momentum_circular (diameter Q y : R) : outcome R :=
  if Rle_dec y 0 then Returns 0
  else
    A <- area (CircularChannel diameter) y ;;
    if Req_dec_T A 0 then Returns 0
    else
      d_bar <- centroid_distance diameter y ;;
      let y_bar := y - d_bar in
      m <- pydiv (Q ^ 2) (g * A) ;;
      Returns (m + A * y_bar).

Definition sequent_depth_circular (sv : Solvers) (diameter y1 Q : R)
  : outcome R :=
  let channel := CircularChannel diameter in
  M1 <- momentum_circular diameter Q y1 ;;
  A1 <- area channel y1 ;;
  T1 <- top_width channel y1 ;;
  y2_guess <-
    (if Rlt_dec 0 T1 then
       equiv_y1 <- pydiv A1 T1 ;;
       sequent_depth_rectangular equiv_y1 Q T1
     else Returns (y1 * 2)) ;;
  let equation := fun y2 =>
    if Rle_dec y2 0 then Returns 10000000000
    else if Rge_dec y2 diameter then Returns 10000000000
    else
      M2 <- momentum_circular diameter Q y2 ;;
      Returns (M2 - M1) in
  let rest :=
    try_except
      (if Rlt_dec y1 y2_guess
       then brentq sv equation (y1 * (101 / 100)) (diameter * (99 / 100))
       else brentq sv equation (1 / 1000) (y1 * (99 / 100)))
      (result <- fsolve sv equation y2_guess ;;
       Returns (Rabs (fst result))) in
  match fsolve sv equation y2_guess with
  | Returns result =>
      if Z.eq_dec (snd result) 1 then
        let y2 := fst result in
        if Rlt_dec 0 y2 then
          if Rlt_dec y2 diameter then Returns y2 else rest
        else rest
      else rest
  | Raises _ => rest
  end.

(** The closure [momentum_triangular] of [sequent_depth_triangular]. *)
Definition momentum_triangular (m Q y : R) : outcome R :=
  if Rle_dec y 0 then Returns 0
  else
    let A := m * y ^ 2 in
    if Req_dec_T A 0 then Returns 0
    else
      let y_bar := y / 3 in
      q <- pydiv (Q ^ 2) (g * A) ;;
      Returns (q + A * y_bar).

Definition sequent_depth_triangular (sv : Solvers) (side_slope y1 Q : R)
  : outcome R :=
  let m := side_slope in
  M1 <- momentum_triangular m Q y1 ;;
  let y2_guess := y1 * 2 in
  let equation := jump_equation (momentum_triangular m Q) M1 in
  result <- fsolve sv equation y2_guess ;;
  Returns (Rabs (fst result)).

(** [sequent_depth]: dispatch on the class of the section.  A
    [WideChannel] is a [RectangularChannel] of width [1.0]. *)
Definition sequent_depth (sv : Solvers) (channel : ChannelSection)
    (y1 Q : R) (initial_guess : option R) : outcome R :=
  match channel with
  | RectangularChannel width => sequent_depth_rectangular y1 Q width
  | WideChannel => sequent_depth_rectangular y1 Q 1
  | CircularChannel diameter => sequent_depth_circular sv diameter y1 Q
  | TriangularChannel side_slope =>
      sequent_depth_triangular sv side_slope y1 Q
  | _ => sequent_depth_general sv channel y1 Q initial_guess
  end.

Definition energy_loss_jump (channel : ChannelSection) (y1 y2 Q : R)
  : outcome R :=
  A1 <- area channel y1 ;;
  A2 <- area channel y2 ;;
  V1 <- pydiv Q A1 ;;
  V2 <- pydiv Q A2 ;;
  let E1 := y1 + V1 ^ 2 / (2 * g) in
  let E2 := y2 + V2 ^ 2 / (2 * g) in
  Returns (E1 - E2).

Definition energy_loss_fraction (channel : ChannelSection) (y1 y2 Q : R)
  : outcome R :=
  A1 <- area channel y1 ;;
  V1 <- pydiv Q A1 ;;
  let E1 := y1 + V1 ^ 2 / (2 * g) in
  delta_E <- energy_loss_jump channel y1 y2 Q ;;
  pydiv delta_E E1.

(** ** calculations/gradually_varied_flow.py *)

(** The tail shared by both derivative functions: the Froude number at the
    current depth and the quotient [(S0 - Sf) / (1 - Fr**2)].  With
    [Fr = float('inf')] the denominator is [-inf] and the quotient of the
    finite numerator by it is a zero. *)
Definition gvf_quotient (channel : ChannelSection) (y V S0 Sf : R)
  : outcome R :=
  D <- hydraulic_depth channel y ;;
  Fr <- (if Rle_dec D 0 then Returns PInf
         else
           s <- pysqrt (g * D) ;;
           q <- pydiv V s ;;
           Returns (Fin q)) ;;
  let numerator := S0 - Sf in
  match Fr with
  | PInf => Returns 0
  | Fin fr =>
      let denominator := 1 - fr ^ 2 in
      if Rlt_dec (Rabs denominator) (1 / 10 ^ 10) then Returns 0
      else pydiv numerator denominator
  end.

Definition gvf_derivative_manning (channel : ChannelSection) (y Q S0 n : R)
  : outcome R :=
  if Rle_dec y 0 then Returns 0
  else
    A <- area channel y ;;
    R_ <- hydraulic_radius channel y ;;
    T <- top_width channel y ;;
    if Req_dec_T A 0 then Returns 0
    else if Req_dec_T T 0 then Returns 0
    else
      V <- pydiv Q A ;;
      p <- pypow R_ (2 / 3) ;;
      f <- pydiv (n * V) p ;;
      let Sf := f ^ 2 in
      gvf_quotient channel y V S0 Sf.

Definition gvf_derivative_chezy (channel : ChannelSection) (y Q S0 C : R)
  : outcome R :=
  if Rle_dec y 0 then Returns 0
  else
    A <- area channel y ;;
    R_ <- hydraulic_radius channel y ;;
    T <- top_width channel y ;;
    if Req_dec_T A 0 then Returns 0
    else if Req_dec_T T 0 then Returns 0
    else
      V <- pydiv Q A ;;
      Sf <- pydiv (V ^ 2) (C ^ 2 * R_) ;;
      gvf_quotient channel y V S0 Sf.

(** The body of the marching loop [for i in range(num_steps)], the same in
    both profile solvers: [steps] iterations remain, [xi], [yi] are the
    entries written last.  The result lists the entries from [xi], [yi]
    on. *)
Fixpoint gvf_march (deriv : R -> outcome R) (dx : R) (steps : nat)
    (xi yi : R) : outcome (list R * list R) :=
  match steps with
  | O => Returns ([xi], [yi])
  | S k =>
      dy_dx <- deriv yi ;;
      let y_next := yi + dy_dx * dx in
      let x_next := xi + dx in
      let y_next := if Rlt_dec y_next (1 / 1000) then 1 / 1000 else y_next in
      rest <- gvf_march deriv dx k x_next y_next ;;
      Returns (xi :: fst rest, yi :: snd rest)
  end.

(** The profile solver for a given derivative; [num_steps] is a
    non-negative [int]. *)
Definition solve_gvf_profile (deriv : R -> outcome R)
    (y_start distance : R) (num_steps : nat) (direction : string)
  : outcome (list R * list R) :=
  dx <- pydiv distance (INR num_steps) ;;
  let dx := if String.eqb direction "upstream" then - dx else dx in
  gvf_march deriv dx num_steps 0 y_start.

Definition solve_gvf_profile_manning (channel : ChannelSection)
    (Q S0 n y_start distance : R) (num_steps : nat) (direction : string)
  : outcome (list R * list R) :=
  solve_gvf_profile (fun y => gvf_derivative_manning channel y Q S0 n)
                    y_start distance num_steps direction.

Definition solve_gvf_profile_chezy (channel : ChannelSection)
    (Q S0 C y_start distance : R) (num_steps : nat) (direction : string)
  : outcome (list R * list R) :=
  solve_gvf_profile (fun y => gvf_derivative_chezy channel y Q S0 C)
                    y_start distance num_steps direction.

(** The rescaling of the trial distance in [distance_to_depth_manning]. *)
Definition adjust_distance (direction : string) (y_end y_target distance : R)
  : R :=
  if String.eqb direction "upstream" then
    if Rlt_dec y_end y_target then distance * (3 / 2)
    else distance * (7 / 10)
  else
    if Rlt_dec y_target y_end then distance * (3 / 2)
    else distance * (7 / 10).

(** The loop [for iteration in range(10)] of [distance_to_depth_manning]
    followed by the final [return abs(x[-1])].  [iterations] is what is
    left of the range, [x_last] the last entry of the [x] array of the most
    recent profile (none before the first iteration), [evals] the number of
    profiles computed so far; the number of profiles computed is returned
    next to the outcome. *)
Fixpoint distance_search (profile : R -> outcome (list R * list R))
    (direction : string) (y_target max_distance : R)
    (iterations : nat) (distance : R) (x_last : option R) (evals : nat)
  : nat * outcome R :=
  match iterations with
  | O =>
      (evals, match x_last with
              | Some x_end => Returns (Rabs x_end)
              | None => Raises NameError
              end)
  | S k =>
      match profile distance with
      | Raises e => (S evals, Raises e)
      | Returns (x, y) =>
          let y_end := last y 0 in
          let x_end := last x 0 in
          if Rlt_dec (Rabs (y_end - y_target)) (1 / 100)
          then (S evals, Returns (Rabs x_end))
          else
            let distance := adjust_distance direction y_end y_target distance in
            if Rlt_dec max_distance distance
            then (S evals, Returns (Rabs x_end))
            else distance_search profile direction y_target max_distance
                                 k distance (Some x_end) (S evals)
      end
  end.

(** [distance_to_depth_manning] together with the number of profiles it
    computed. *)
Definition distance_to_depth_manning_counted (channel : ChannelSection)
    (Q S0 n y_start y_target : R) (num_steps : nat) (max_distance : R)
  : nat * outcome R :=
  if Rlt_dec (Rabs (y_start - y_target)) (1 / 1000) then (O, Returns 0)
  else
    let direction :=
      if Rlt_dec y_start y_target then "upstream"%string
      else "downstream"%string in
    let distance := Rabs (y_target - y_start) * 100 in
    distance_search
      (fun d => solve_gvf_profile_manning channel Q S0 n y_start d
                                          num_steps direction)
      direction y_target max_distance 10 distance None O.

Definition distance_to_depth_manning (channel : ChannelSection)
    (Q S0 n y_start y_target : R) (num_steps : nat) (max_distance : R)
  : outcome R :=
  snd (distance_to_depth_manning_counted channel Q S0 n y_start y_target
                                         num_steps max_distance).

(** ** solvers/main_solver.py *)

(** Python dictionaries with string keys, in insertion order. *)
Fixpoint dict_get {V : Type} (d : list (string * V)) (k : string) : option V :=
  match d with
  | [] => None
  | (k', v) :: rest => if String.eqb k' k then Some v else dict_get rest k
  end.

Fixpoint dict_set {V : Type} (d : list (string * V)) (k : string) (v : V)
  : list (string * V) :=
  match d with
  | [] => [(k, v)]
  | (k', v') :: rest =>
      if String.eqb k' k then (k, v) :: rest
      else (k', v') :: dict_set rest k v
  end.

Definition dict_mem {V : Type} (d : list (string * V)) (k : string) : bool :=
  match dict_get d k with
  | Some _ => true
  | None => false
  end.

(** The values a parameter dictionary holds. *)
Inductive pyval : Type :=
| PNum (r : R)
| PStr (s : string)
| PDict (d : list (string * pyval))
| PNone.

(** [params[k]] read as a number; a missing key is a [KeyError].  A value
    that is not a number is reported here as a [TypeError]. *)
Definition param_num (params : list (string * pyval)) (k : string)
  : outcome R :=
  match dict_get params k with
  | None => Raises KeyError
  | Some (PNum r) => Returns r
  | Some _ => Raises TypeError
  end.

(** [TriangularChannel.__init__] *)
Definition TriangularChannel_init (side_slope semi_angle : option R)
  : outcome ChannelSection :=
  match side_slope with
  | Some m => Returns (TriangularChannel m)
  | None =>
      match semi_angle with
      | Some a => Returns (TriangularChannel (tan (a * (PI / 180))))
      | None => Raises ValueError
      end
  end.

(** An optional number: [None] stays [None]. *)
Definition param_opt (params : list (string * pyval)) (k : string)
  : outcome (option R) :=
  match dict_get params k with
  | None => Raises KeyError
  | Some (PNum r) => Returns (Some r)
  | Some PNone => Returns None
  | Some _ => Raises TypeError
  end.

Definition create_triangular (params : list (string * pyval))
  : outcome ChannelSection :=
  if dict_mem params "side_slope" then
    m <- param_opt params "side_slope" ;;
    TriangularChannel_init m None
  else
    a <- param_opt params "semi_angle" ;;
    TriangularChannel_init None a.

(** [CompoundChannel._create_section] *)
Definition _create_section (section_type : string)
    (params : list (string * pyval)) : outcome ChannelSection :=
  if String.eqb section_type "rectangular" then
    w <- param_num params "width" ;;
    Returns (RectangularChannel w)
  else if String.eqb section_type "trapezoidal" then
    b <- param_num params "bottom_width" ;;
    m <- param_num params "side_slope" ;;
    Returns (TrapezoidalChannel b m)
  else if String.eqb section_type "triangular" then
    create_triangular params
  else if String.eqb section_type "circular" then
    d <- param_num params "diameter" ;;
    Returns (CircularChannel d)
  else Raises ValueError.

(** [CompoundChannel.__init__] *)
Definition CompoundChannel_init (bottom_section_type : string)
    (bottom_params : list (string * pyval)) (break_depth : R)
    (top_section_type : option string)
    (top_params : option (list (string * pyval)))
  : outcome ChannelSection :=
  bottom <- _create_section bottom_section_type bottom_params ;;
  match top_section_type, top_params with
  | Some ty, Some ps =>
      top <- _create_section ty ps ;;
      Returns (CompoundChannel bottom break_depth (Some top))
  | _, _ => Returns (CompoundChannel bottom break_depth None)
  end.

(** [OpenChannelSolver._create_channel] *)
Definition _create_channel (channel_type : string)
    (params : list (string * pyval)) : outcome ChannelSection :=
  if String.eqb channel_type "rectangular" then
    w <- param_num params "width" ;;
    Returns (RectangularChannel w)
  else if String.eqb channel_type "trapezoidal" then
    b <- param_num params "bottom_width" ;;
    m <- param_num params "side_slope" ;;
    Returns (TrapezoidalChannel b m)
  else if String.eqb channel_type "circular" then
    d <- param_num params "diameter" ;;
    Returns (CircularChannel d)
  else if String.eqb channel_type "triangular" then
    create_triangular params
  else if String.eqb channel_type "wide" then
    Returns WideChannel
  else if String.eqb channel_type "compound" then
    bottom_type <-
      match dict_get params "bottom_section_type" with
      | None => Raises KeyError
      | Some (PStr ty) => Returns ty
      | Some _ => Raises ValueError
      end ;;
    bottom_params <-
      match dict_get params "bottom_params" with
      | None => Raises KeyError
      | Some (PDict d) => Returns d
      | Some _ => Raises TypeError
      end ;;
    break_depth <- param_num params "break_depth" ;;
    let top_type :=
      match dict_get params "top_section_type" with
      | Some (PStr ty) => Some ty
      | _ => None
      end in
    let top_params :=
      match dict_get params "top_params" with
      | Some (PDict d) => Some d
      | _ => None
      end in
    CompoundChannel_init bottom_type bottom_params break_depth
                         top_type top_params
  else Raises ValueError.

(** [OpenChannelSolver.solve_hydraulic_jump_problem]: the result mapping
    is built entry by entry; no statement of the method is inside a
    [try]. *)
Definition solve_hydraulic_jump_problem (sv : Solvers)
    (channel_type : string) (channel_params : list (string * pyval))
    (Q : R) (y1 y2 : option R) (find_sequent find_energy_loss : bool)
  : outcome (list (string * xfloat)) :=
  channel <- _create_channel channel_type channel_params ;;
  let results := [("discharge"%string, Fin Q)] in
  results <-
    match y1 with
    | None => Returns results
    | Some y1 =>
        let results := dict_set results "depth_1" (Fin y1) in
        Fr1 <- froude_number channel y1 Q ;;
        let results := dict_set results "froude_1" Fr1 in
        if find_sequent then
          y2_calc <- sequent_depth sv channel y1 Q None ;;
          let results := dict_set results "sequent_depth" (Fin y2_calc) in
          if find_energy_loss then
            dE <- energy_loss_jump channel y1 y2_calc Q ;;
            frac <- energy_loss_fraction channel y1 y2_calc Q ;;
            let results := dict_set results "energy_loss" (Fin dE) in
            let results := dict_set results "energy_loss_fraction" (Fin frac) in
            Returns results
          else Returns results
        else Returns results
    end ;;
  match y2 with
  | Some y2 =>
      if negb (dict_mem results "sequent_depth") then
        let results := dict_set results "depth_2" (Fin y2) in
        Fr2 <- froude_number channel y2 Q ;;
        let results := dict_set results "froude_2" Fr2 in
        Returns results
      else Returns results
  | None => Returns results
  end.

(** ** Further functions of calculations/flow_calculations.py *)

(** Comparisons of floats as booleans, for chained conditions. *)
Definition Rltb (a b : R) : bool := if Rlt_dec a b then true else false.
Definition Rleb (a b : R) : bool := if Rle_dec a b then true else false.

(** The residual closure [equation] of [critical_depth]. *)
Definition critical_depth_equation (channel : ChannelSection) (Q y : R)
  : outcome R :=
  if Rle_dec y 0 then Returns 10000000000
  else
    A <- area channel y ;;
    T <- top_width channel y ;;
    if Rle_dec A 0 then Returns 10000000000
    else if Rle_dec T 0 then Returns 10000000000
    else
      q <- pydiv (Q ^ 2 * T) (g * A ^ 3) ;;
      Returns (q - 1).

Definition critical_depth (sv : Solvers) (channel : ChannelSection)
    (Q initial_guess max_depth : R) : outcome R :=
  let equation := critical_depth_equation channel Q in
  try_except
    (y_c <- brentq sv equation (1 / 1000) max_depth ;; Returns y_c)
    (result <- fsolve sv equation initial_guess ;;
     Returns (Rabs (fst result))).

Definition flow_regime (Fr : xfloat) : string :=
  match Fr with
  | Fin fr =>
      if Rlt_dec fr (99 / 100) then "subcritical"
      else if Rlt_dec (101 / 100) fr then "supercritical"
      else "critical"
  | PInf => "supercritical"
  end.

Definition specific_energy (channel : ChannelSection) (depth Q : R)
  : outcome xfloat :=
  A <- area channel depth ;;
  if Req_dec_T A 0 then Returns PInf
  else
    V <- pydiv Q A ;;
    Returns (Fin (depth + V ^ 2 / (2 * g))).

(** [critical_slope_manning]; without [y_c] the critical depth is computed
    first, with the default arguments of [critical_depth]. *)
Definition critical_slope_manning (sv : Solvers) (channel : ChannelSection)
    (Q n : R) (y_c : option R) : outcome R :=
  y_c <- match y_c with
         | Some y => Returns y
         | None => critical_depth sv channel Q 1 20
         end ;;
  A <- area channel y_c ;;
  R_ <- hydraulic_radius channel y_c ;;
  V <- pydiv Q A ;;
  p <- pypow R_ (2 / 3) ;;
  x <- pydiv (V * n) p ;;
  Returns (x ^ 2).

Definition critical_slope_chezy (sv : Solvers) (channel : ChannelSection)
    (Q C : R) (y_c : option R) : outcome R :=
  y_c <- match y_c with
         | Some y => Returns y
         | None => critical_depth sv channel Q 1 20
         end ;;
  A <- area channel y_c ;;
  R_ <- hydraulic_radius channel y_c ;;
  V <- pydiv Q A ;;
  s <- pysqrt R_ ;;
  x <- pydiv V (C * s) ;;
  Returns (x ^ 2).

Definition slope_classification (S S_c : R) : string :=
  if Rlt_dec S (S_c * (99 / 100)) then "mild"
  else if Rlt_dec (S_c * (101 / 100)) S then "steep"
  else "critical".

Definition velocity_from_discharge (channel : ChannelSection) (depth Q : R)
  : outcome R :=
  A <- area channel depth ;;
  if Req_dec_T A 0 then Returns 0 else pydiv Q A.

Definition manning_n_from_depth (channel : ChannelSection) (Q depth S : R)
  : outcome R :=
  A <- area channel depth ;;
  R_ <- hydraulic_radius channel depth ;;
  V <- pydiv Q A ;;
  p <- pypow R_ (2 / 3) ;;
  s <- pypow S (1 / 2) ;;
  pydiv (p * s) V.

(** ** Further functions of calculations/hydraulic_jump.py *)

Definition jump_classification_rectangular (y1 Q width : R)
  : outcome string :=
  let A1 := width * y1 in
  V1 <- pydiv Q A1 ;;
  s <- pysqrt (g * y1) ;;
  Fr1 <- pydiv V1 s ;;
  Returns
    (if Rltb Fr1 1 then "No jump (subcritical flow)"
     else if Rleb 1 Fr1 && Rltb Fr1 (17 / 10) then "Undular jump"
     else if Rleb (17 / 10) Fr1 && Rltb Fr1 (25 / 10) then "Weak jump"
     else if Rleb (25 / 10) Fr1 && Rltb Fr1 (45 / 10) then "Oscillating jump"
     else if Rleb (45 / 10) Fr1 && Rltb Fr1 9 then "Steady jump"
     else "Strong jump")%string.

(** Water density, the local constant [rho] of the force functions. *)
Definition rho : R := 1000.

(** [force_on_obstacle]; the test [isinstance(channel, RectangularChannel)]
    holds for rectangular and for wide channels. *)
Definition force_on_obstacle (channel : ChannelSection) (y1 y2 Q : R)
  : outcome R :=
  A1 <- area channel y1 ;;
  A2 <- area channel y2 ;;
  V1 <- pydiv Q A1 ;;
  V2 <- pydiv Q A2 ;;
  let momentum_change := rho * Q * (V1 - V2) in
  pressure_change <-
    match channel with
    | RectangularChannel _ | WideChannel =>
        Returns (rho * g * (A1 * y1 / 2 - A2 * y2 / 2))
    | _ =>
        D1 <- hydraulic_depth channel y1 ;;
        D2 <- hydraulic_depth channel y2 ;;
        Returns (rho * g * (A1 * D1 / 2 - A2 * D2 / 2))
    end ;;
  Returns (momentum_change + pressure_change).

(** ** Further functions of calculations/gradually_varied_flow.py *)

Definition distance_to_depth_chezy (channel : ChannelSection)
    (Q S0 C y_start y_target : R) (num_steps : nat) (max_distance : R)
  : outcome R :=
  if Rlt_dec (Rabs (y_start - y_target)) (1 / 1000) then Returns 0
  else
    let direction :=
      if Rlt_dec y_start y_target then "upstream"%string
      else "downstream"%string in
    let distance := Rabs (y_target - y_start) * 100 in
    snd (distance_search
           (fun d => solve_gvf_profile_chezy channel Q S0 C y_start d
                                             num_steps direction)
           direction y_target max_distance 10 distance None O).

Definition classify_gvf_curve (S0 S_c y y_n y_c : R) : string :=
  let slope_type :=
    (if Rlt_dec (Rabs S0) (1 / 10 ^ 10) then "H"
     else if Rlt_dec S0 0 then "A"
     else if Rlt_dec (Rabs (S0 - S_c)) (S_c * (1 / 100)) then "C"
     else if Rlt_dec S0 S_c then "M"
     else "S")%string in
  let zone :=
    (if String.eqb slope_type "M" then
       if Rlt_dec y_n y then "1" else if Rlt_dec y_c y then "2" else "3"
     else if String.eqb slope_type "S" then
       if Rlt_dec y_c y then "1" else if Rlt_dec y_n y then "2" else "3"
     else if String.eqb slope_type "C" then
       if Rlt_dec y_c y then "1" else "3"
     else if String.eqb slope_type "H" then
       if Rlt_dec y_c y then "2" else "3"
     else if String.eqb slope_type "A" then
       if Rlt_dec y_c y then "2" else "3"
     else "?")%string in
  (slope_type ++ zone)%string.

(** The table of [gvf_curve_properties]. *)
Definition gvf_curve_table : list (string * list (string * string)) :=
  let entry (s r d t : string) :=
    [("surface_slope", s); ("regime", r); ("direction", d);
     ("description", t)]%string in
  [("M1", entry "Mild" "Subcritical" "Backwater" "Drawdown to normal");
   ("M2", entry "Mild" "Subcritical" "Drawdown" "Acceleration to critical");
   ("M3", entry "Steep" "Supercritical" "Backwater" "Rise to critical");
   ("S1", entry "Mild" "Subcritical" "Backwater" "Rise to critical");
   ("S2", entry "Steep" "Supercritical" "Drawdown" "Drop to normal");
   ("S3", entry "Steep" "Supercritical" "Backwater" "Acceleration");
   ("C1", entry "Uniform" "Subcritical" "Backwater" "Approach to critical");
   ("C3", entry "Uniform" "Supercritical" "Backwater"
                "Acceleration from critical");
   ("H2", entry "Horizontal" "Subcritical" "Drawdown"
                "Horizontal channel subcritical");
   ("H3", entry "Horizontal" "Supercritical" "Backwater"
                "Horizontal channel supercritical");
   ("A2", entry "Adverse" "Subcritical" "Drawdown"
                "Adverse slope subcritical");
   ("A3", entry "Adverse" "Supercritical" "Backwater"
                "Adverse slope supercritical")]%string.

(** [gvf_curve_properties]: [properties.get(curve_type, default)]. *)
Definition gvf_curve_properties (curve_type : string)
  : list (string * string) :=
  match dict_get gvf_curve_table curve_type with
  | Some properties => properties
  | None => [("description", "Unknown curve type")]%string
  end.

(** ** calculations/weir_sluice.py: the closed-form gate relations *)

(** [sluice_gate_discharge]; the argument [gate_opening] is not used by
    the function. *)
Definition sluice_gate_discharge (channel : ChannelSection)
    (y_upstream y_downstream energy_loss_coeff : R) : outcome R :=
  A_up <- area channel y_upstream ;;
  A_down <- area channel y_downstream ;;
  if Rle_dec y_upstream y_downstream then Returns 0
  else
    q <- pydiv (2 * g * (y_upstream - y_downstream)) (1 + energy_loss_coeff) ;;
    V2 <- pysqrt q ;;
    Returns (A_down * V2).

Definition sluice_gate_force (channel : ChannelSection)
    (y_upstream y_downstream Q : R) : outcome R :=
  A1 <- area channel y_upstream ;;
  A2 <- area channel y_downstream ;;
  V1 <- (if Rlt_dec 0 A1 then pydiv Q A1 else Returns 0) ;;
  V2 <- (if Rlt_dec 0 A2 then pydiv Q A2 else Returns 0) ;;
  let momentum_change := rho * Q * (V1 - V2) in
  D1 <- hydraulic_depth channel y_upstream ;;
  D2 <- hydraulic_depth channel y_downstream ;;
  let pressure_change := rho * g * (A1 * D1 / 2 - A2 * D2 / 2) in
  Returns (momentum_change + pressure_change).

(** ** Notions used to state the properties *)

(** The width of the bed of a section: what is left of the water surface
    and of the wetted perimeter when the depth is zero. *)
Fixpoint bed_width (c : ChannelSection) : R :=
  match c with
  | RectangularChannel width => width
  | TrapezoidalChannel bottom_width _ => bottom_width
  | CircularChannel _ => 0
  | TriangularChannel _ => 0
  | CompoundChannel bottom_section _ _ => bed_width bottom_section
  | WideChannel => 1
  end.

(** Compound sections whose break depths are not negative, so that depth
    zero lies in the bottom section. *)
Fixpoint break_nonneg (c : ChannelSection) : Prop :=
  match c with
  | CompoundChannel bottom_section break_depth _ =>
      0 <= break_depth /\ break_nonneg bottom_section
  | _ => True
  end.

(** The sections other than compound ones, with dimensions that are not
    negative. *)
Definition nonneg_dimensions (c : ChannelSection) : Prop :=
  match c with
  | RectangularChannel width => 0 <= width
  | TrapezoidalChannel bottom_width side_slope =>
      0 <= bottom_width /\ 0 <= side_slope
  | CircularChannel diameter => 0 <= diameter
  | TriangularChannel side_slope => 0 <= side_slope
  | CompoundChannel _ _ _ => False
  | WideChannel => True
  end.

(** The factor [S**0.5] of Manning's formula for a slope that is not
    negative. *)
Definition slope_factor (S : R) : R :=
  if Rlt_dec 0 S then Rpower S (1 / 2) else 0.

(** The clamping [max(-1, min(1, x))] of [_theta]. *)
Definition clamp (x : R) : R := Rmax (-1) (Rmin 1 x).

(** The closed form of the sequent depth in a rectangular channel as the
    specification words it (section 4.4):
    [y2 = (y1/2) * (sqrt(1 + 8*Fr1^2) - 1)] with [Fr1 = V1 / sqrt(g*y1)]
    and [V1 = Q / (width * y1)]; to be compared with what the solvers
    return. *)
Definition belanger_closed_form (y1 Q width : R) : R :=
  let V1 := Q / (width * y1) in
  let Fr1 := V1 / sqrt (g * y1) in
  (y1 / 2) * (sqrt (1 + 8 * Fr1 ^ 2) - 1).

(** ** Proof tools *)

Ltac decide_reals :=
  repeat match goal with
    | |- context [Rle_dec ?a ?b] => destruct (Rle_dec a b)
    | |- context [Rlt_dec ?a ?b] => destruct (Rlt_dec a b)
    | |- context [Rge_dec ?a ?b] => destruct (Rge_dec a b)
    | |- context [Req_dec_T ?a ?b] => destruct (Req_dec_T a b)
    end.

Ltac split_clamp :=
  unfold clamp, Rmin;
  repeat match goal with
    | |- context [Rle_dec 1 ?a] => destruct (Rle_dec 1 a)
    end;
  unfold Rmax;
  repeat match goal with
    | |- context [Rle_dec (-1) ?a] => destruct (Rle_dec (-1) a)
    end.

(** Induction over sections that also covers the optional top section of a
    compound channel. *)
Fixpoint ChannelSection_induction (P : ChannelSection -> Prop)
    (Hrect : forall w, P (RectangularChannel w))
    (Htrap : forall b m, P (TrapezoidalChannel b m))
    (Hcirc : forall d, P (CircularChannel d))
    (Htri : forall m, P (TriangularChannel m))
    (Hcomp_top : forall b d t, P b -> P t -> P (CompoundChannel b d (Some t)))
    (Hcomp : forall b d, P b -> P (CompoundChannel b d None))
    (Hwide : P WideChannel)
    (c : ChannelSection) {struct c} : P c :=
  let rec := ChannelSection_induction P Hrect Htrap Hcirc Htri
                                      Hcomp_top Hcomp Hwide in
  match c with
  | RectangularChannel w => Hrect w
  | TrapezoidalChannel b m => Htrap b m
  | CircularChannel d => Hcirc d
  | TriangularChannel m => Htri m
  | CompoundChannel b d (Some t) => Hcomp_top b d t (rec b) (rec t)
  | CompoundChannel b d None => Hcomp b d (rec b)
  | WideChannel => Hwide
  end.

(** ** A solver instance

    The smallest pair of routines that meets the interface: an [fsolve]
    that stops after evaluating the residual at the starting point, and a
    [brentq] that checks the bracket, accepts an end point that is an exact
    zero and otherwise gives up with [RuntimeError]. *)

Definition fsolve_one_step (f : R -> outcome R) (x0 : R) : outcome (R * Z) :=
  v <- f x0 ;;
  Returns (x0, if Req_dec_T v 0 then 1%Z else 5%Z).

Definition brentq_endpoints (f : R -> outcome R) (a b : R) : outcome R :=
  fa <- f a ;;
  fb <- f b ;;
  if Rlt_dec 0 (fa * fb) then Raises ValueError
  else if Req_dec_T fa 0 then Returns a
  else if Req_dec_T fb 0 then Returns b
  else Raises RuntimeError.

Definition minimal_solvers : Solvers.
Proof.
  refine {| fsolve := fsolve_one_step; brentq := brentq_endpoints |}.
  - intros f x0 Hf. unfold fsolve_one_step.
    destruct (Hf x0) as [v ->]. simpl. eexists; reflexivity.
  - intros f x0 _ H0. unfold fsolve_one_step. rewrite H0. simpl.
    destruct (Req_dec_T 0 0); [reflexivity | lra].
  - intros f a b fa fb Ha Hb Hs. unfold brentq_endpoints.
    rewrite Ha, Hb. simpl.
    destruct (Rlt_dec 0 (fa * fb)); [reflexivity | lra].
Defined.

(** * Properties *)

Lemma returns_Returns {A : Type} (a : A) : returns (Returns a).
Proof. exists a; reflexivity. Qed.

Lemma returns_bind {A B : Type} (m : outcome A) (k : A -> outcome B) :
  returns m -> (forall a, returns (k a)) -> returns (x <- m ;; k x).
Proof.
  intros [a ->] Hk. simpl. apply Hk.
Qed.

Lemma pydiv_nonzero (a b : R) : b <> 0 -> pydiv a b = Returns (a / b).
Proof. intros Hb. unfold pydiv. decide_reals; try contradiction; reflexivity. Qed.

Lemma pydiv_zero (a : R) : pydiv a 0 = Raises ZeroDivisionError.
Proof. unfold pydiv. decide_reals; try lra; reflexivity. Qed.

Lemma pysqrt_nonneg (x : R) : 0 <= x -> pysqrt x = Returns (sqrt x).
Proof. intros Hx. unfold pysqrt. decide_reals; try lra; reflexivity. Qed.

Lemma pypow_pos (x a : R) : 0 < x -> pypow x a = Returns (Rpower x a).
Proof. intros Hx. unfold pypow. decide_reals; try lra; reflexivity. Qed.

Lemma pypow_zero (a : R) : pypow 0 a = Returns 0.
Proof. unfold pypow. decide_reals; try lra; reflexivity. Qed.

(** ** Geometry never raises *)

Lemma _theta_returns (diameter depth : R) : returns (_theta diameter depth).
Proof.
  unfold _theta. decide_reals; try apply returns_Returns.
  rewrite pydiv_nonzero; [apply returns_Returns |].
  unfold radius in *. lra.
Qed.

Lemma _theta_bounds (diameter depth theta : R) :
  _theta diameter depth = Returns theta -> 0 <= theta <= PI.
Proof.
  unfold _theta. pose proof PI_RGT_0 as Hpi.
  decide_reals; try (intros [= <-]; lra).
  rewrite pydiv_nonzero by (unfold radius in *; lra). simpl.
  intros [= <-]. apply acos_bound.
Qed.

Lemma area_returns (c : ChannelSection) : forall depth, returns (area c depth).
Proof.
  induction c using ChannelSection_induction; intros depth; simpl;
    try apply returns_Returns.
  - apply returns_bind; [apply _theta_returns | intros; apply returns_Returns].
  - decide_reals; [apply IHc1 |].
    apply returns_bind; [apply IHc1 | intros].
    apply returns_bind; [apply IHc2 | intros; apply returns_Returns].
  - decide_reals; [apply IHc |].
    apply returns_bind; [apply IHc | intros].
    apply returns_bind; [| intros; apply returns_Returns].
    apply returns_bind; [apply IHc | intros; apply returns_Returns].
Qed.

Lemma top_width_returns (c : ChannelSection) :
  forall depth, returns (top_width c depth).
Proof.
  induction c using ChannelSection_induction; intros depth; simpl;
    try apply returns_Returns.
  - apply returns_bind; [apply _theta_returns | intros; apply returns_Returns].
  - decide_reals; [apply IHc1 | apply IHc2].
  - decide_reals; apply IHc.
Qed.

Lemma wetted_perimeter_returns (c : ChannelSection) :
  forall depth, returns (wetted_perimeter c depth).
Proof.
  induction c using ChannelSection_induction; intros depth; simpl;
    try apply returns_Returns.
  - apply returns_bind; [apply _theta_returns | intros; apply returns_Returns].
  - decide_reals; [apply IHc1 |].
    apply returns_bind; [apply IHc1 | intros].
    apply returns_bind; [apply IHc2 | intros].
    apply returns_bind; [apply top_width_returns | intros].
    apply returns_Returns.
  - decide_reals; apply IHc.
Qed.

(** ** Derived geometry: hydraulic radius and hydraulic depth *)

(** C5, as stated, fails on the wide channel: at depth 1 its area is 1 and
    its wetted perimeter 3, yet [hydraulic_radius] returns 1, not 1/3. *)
Lemma C5_wide_radius_counterexample :
  exists A P,
    area WideChannel 1 = Returns A /\
    wetted_perimeter WideChannel 1 = Returns P /\
    P <> 0 /\
    hydraulic_radius WideChannel 1 <> Returns (A / P).
Proof.
  exists (1 * 1), (1 + 2 * 1). simpl.
  repeat split; try lra.
  intros H. injection H as H. lra.
Qed.

(** C5 (amended): for every section and depth the three primitive queries
    return numbers [A], [P], [T]; [hydraulic_depth] returns [A / T], or 0
    when [T] is 0; [hydraulic_radius] returns [A / P], or 0 when [P] is 0,
    for every section but the wide channel, for which it returns the depth
    itself. *)
Theorem C5_hydraulic_radius_and_depth (c : ChannelSection) (y : R) :
  exists A P T,
    area c y = Returns A /\
    wetted_perimeter c y = Returns P /\
    top_width c y = Returns T /\
    hydraulic_radius c y =
      Returns (match c with
               | WideChannel => y
               | _ => if Req_dec_T P 0 then 0 else A / P
               end) /\
    hydraulic_depth c y = Returns (if Req_dec_T T 0 then 0 else A / T).
Proof.
  destruct (area_returns c y) as [A HA].
  destruct (wetted_perimeter_returns c y) as [P HP].
  destruct (top_width_returns c y) as [T HT].
  exists A, P, T. repeat split; try assumption.
  - unfold hydraulic_radius.
    destruct c; rewrite ?HA, ?HP; simpl; try reflexivity;
      destruct (Req_dec_T P 0); try reflexivity; now apply pydiv_nonzero.
  - unfold hydraulic_depth. rewrite HA, HT. simpl.
    destruct (Req_dec_T T 0); [reflexivity | now apply pydiv_nonzero].
Qed.

(** ** Geometry at depth zero and below *)

(** C6, as stated, fails on a rectangular section of width 5: at depth 0
    its wetted perimeter and top width are 5, not 0, and at depth -1 its
    area is returned as -5 instead of an error being signalled. *)
Lemma C6_rectangular_counterexample :
  wetted_perimeter (RectangularChannel 5) 0 <> Returns 0 /\
  top_width (RectangularChannel 5) 0 <> Returns 0 /\
  area (RectangularChannel 5) (-1) = Returns (-5) /\
  area (RectangularChannel 5) (-1) <> Raises DomainError.
Proof.
  simpl. repeat split; try discriminate.
  - intros H. injection H as H. lra.
  - intros H. injection H as H. lra.
  - f_equal. lra.
Qed.

Lemma sections_at_zero (c : ChannelSection) :
  break_nonneg c ->
  area c 0 = Returns 0 /\
  wetted_perimeter c 0 = Returns (bed_width c) /\
  top_width c 0 = Returns (bed_width c).
Proof.
  induction c using ChannelSection_induction; simpl; intros Hb.
  - repeat split; f_equal; lra.
  - repeat split; f_equal; lra.
  - unfold _theta. destruct (Rle_dec 0 0); [| lra]. simpl.
    rewrite sin_0. repeat split; f_equal; lra.
  - repeat split; f_equal; lra.
  - destruct Hb as [Hd Hb]. destruct (Rle_dec 0 d); [| lra]. now apply IHc1.
  - destruct Hb as [Hd Hb]. destruct (Rle_dec 0 d); [| lra]. now apply IHc.
  - repeat split; f_equal; lra.
Qed.

(** C6 (amended): at every depth, zero and negative depths included, each
    of the three queries of every section returns a number and signals no
    error; at depth 0 (for compound sections: with non-negative break
    depths) the area is 0, and the wetted perimeter and the top width are
    the width of the bed, which is 0 for circular and triangular sections
    only. *)
Theorem C6_geometry_total_and_zero_depth (c : ChannelSection) :
  (forall y, returns (area c y) /\ returns (wetted_perimeter c y) /\
             returns (top_width c y)) /\
  (break_nonneg c ->
   area c 0 = Returns 0 /\
   wetted_perimeter c 0 = Returns (bed_width c) /\
   top_width c 0 = Returns (bed_width c)).
Proof.
  split.
  - intros y. repeat split;
      [apply area_returns | apply wetted_perimeter_returns
       | apply top_width_returns].
  - apply sections_at_zero.
Qed.

Lemma C6_geometry_total_and_zero_depth_witness :
  area (CompoundChannel (TrapezoidalChannel 3 2) 1 (Some (RectangularChannel 9)))
       0 = Returns 0 /\
  wetted_perimeter
    (CompoundChannel (TrapezoidalChannel 3 2) 1 (Some (RectangularChannel 9)))
    0 = Returns 3 /\
  top_width
    (CompoundChannel (TrapezoidalChannel 3 2) 1 (Some (RectangularChannel 9)))
    0 = Returns 3.
Proof.
  apply (proj2 (C6_geometry_total_and_zero_depth
                  (CompoundChannel (TrapezoidalChannel 3 2) 1
                                   (Some (RectangularChannel 9))))).
  simpl. split; [lra | exact I].
Defined.

(** ** Froude number *)



(** In exact arithmetic a circular pipe that runs exactly full is an
    instance of the second case: its top width [2*R*sin(pi)] is 0.  (With
    floating-point numbers [sin(pi)] is a tiny positive number, and the
    Froude number of the full pipe is then finite.) *)
Lemma froude_number_full_pipe (Q : R) :
  froude_number (CircularChannel 2) 2 Q = Returns PInf.
Proof.
  assert (Ht : _theta 2 2 = Returns PI).
  { unfold _theta, radius.
    destruct (Rle_dec 2 0); [lra |].
    destruct (Rge_dec 2 (2 * (2 / 2))); [reflexivity | lra]. }
  pose proof PI_RGT_0 as Hpi.
  unfold froude_number, hydraulic_depth. simpl. rewrite Ht. simpl.
  rewrite sin_PI, cos_PI. unfold radius.
  destruct (Req_dec_T (2 / 2 * (2 / 2 * 1) * (PI - 0 * -1)) 0); [nra |].
  rewrite pydiv_nonzero by assumption. simpl.
  destruct (Req_dec_T (2 * (2 / 2) * 0) 0); [| lra]. simpl.
  destruct (Req_dec_T 0 0); [reflexivity | lra].
Qed.

(** ** Monotonicity of the geometry *)

Lemma clamp_bounds (x : R) : -1 <= clamp x <= 1.
Proof.
  split_clamp; lra.
Qed.

Lemma clamp_mono (x y : R) : x <= y -> clamp x <= clamp y.
Proof.
  intros Hxy. split_clamp; lra.
Qed.

Lemma acos_decreasing_le (a b : R) :
  -1 <= a -> a <= b -> b <= 1 -> acos b <= acos a.
Proof.
  intros Ha Hab Hb.
  destruct (Rle_dec (acos b) (acos a)) as [H | H]; [exact H |].
  exfalso. apply Rnot_le_lt in H.
  pose proof (acos_bound a) as [Ha0 Ha1].
  pose proof (acos_bound b) as [Hb0 Hb1].
  pose proof (cos_decreasing_1 (acos a) (acos b) Ha0 Ha1 Hb0 Hb1 H) as Hc.
  rewrite !cos_acos in Hc by lra. lra.
Qed.

(** The half-angle of a circular section, in closed form on the three
    ranges of the depth. *)
Lemma _theta_cases (d y : R) :
  0 <= d ->
  (y <= 0 /\ _theta d y = Returns 0) \/
  (0 < y /\ 2 * radius d <= y /\ _theta d y = Returns PI) \/
  (0 < y < 2 * radius d /\
   _theta d y = Returns (acos (clamp (1 - y / radius d)))).
Proof.
  intros Hd. unfold _theta.
  destruct (Rle_dec y 0); [left; split; [lra | reflexivity] |].
  destruct (Rge_dec y (2 * radius d)).
  - right; left. repeat split; try lra.
  - right; right. split; [lra |].
    rewrite pydiv_nonzero by lra. reflexivity.
Qed.

Lemma _theta_mono (d y1 y2 t1 t2 : R) :
  0 <= d -> y1 <= y2 ->
  _theta d y1 = Returns t1 -> _theta d y2 = Returns t2 -> t1 <= t2.
Proof.
  intros Hd Hy H1 H2.
  pose proof (_theta_bounds _ _ _ H1) as B1.
  pose proof (_theta_bounds _ _ _ H2) as B2.
  destruct (_theta_cases d y1 Hd) as [[Hy1 E1] | [[Hy1 [Hf1 E1]] | [Hy1 E1]]];
    rewrite E1 in H1; injection H1 as <-; try lra;
    destruct (_theta_cases d y2 Hd) as [[Hy2 E2] | [[Hy2 [Hf2 E2]] | [Hy2 E2]]];
    rewrite E2 in H2; injection H2 as <-; try lra.
  assert (HR : 0 < radius d) by lra.
  assert (Hq : y1 / radius d <= y2 / radius d).
  { apply Rmult_le_compat_r; [left; apply Rinv_0_lt_compat; lra | lra]. }
  apply acos_decreasing_le.
  - apply clamp_bounds.
  - apply clamp_mono. lra.
  - apply clamp_bounds.
Qed.

(** The area of a circular segment grows with its half-angle. *)
Lemma segment_mono (t1 t2 : R) :
  0 <= t1 -> t1 <= t2 -> t2 <= PI ->
  t1 - sin t1 * cos t1 <= t2 - sin t2 * cos t2.
Proof.
  intros H0 H12 Hpi.
  assert (E : forall t, sin t * cos t = sin (2 * t) / 2)
    by (intros t; rewrite sin_2a; field).
  rewrite !E.
  pose proof (form4 (2 * t2) (2 * t1)) as F.
  replace ((2 * t2 + 2 * t1) / 2) with (t2 + t1) in F by field.
  replace ((2 * t2 - 2 * t1) / 2) with (t2 - t1) in F by field.
  pose proof (COS_bound (t2 + t1)) as [_ Hc].
  assert (Hs0 : 0 <= sin (t2 - t1)) by (apply sin_ge_0; lra).
  assert (Hs1 : sin (t2 - t1) <= t2 - t1).
  { destruct (Req_dec (t2 - t1) 0) as [Hz | Hz].
    - rewrite Hz, sin_0. lra.
    - left. apply sin_lt_x. lra. }
  nra.
Qed.

Lemma sin_mono_lower (t1 t2 : R) :
  0 <= t1 -> t1 <= t2 -> t2 <= PI / 2 -> sin t1 <= sin t2.
Proof.
  intros H0 H12 H2. pose proof PI_RGT_0.
  destruct (Req_dec t1 t2) as [-> | Hne]; [lra |].
  left. apply sin_increasing_1; lra.
Qed.

Lemma sin_mono_upper (t1 t2 : R) :
  PI / 2 <= t1 -> t1 <= t2 -> t2 <= PI -> sin t2 <= sin t1.
Proof.
  intros H0 H12 H2. pose proof PI_RGT_0.
  destruct (Req_dec t1 t2) as [-> | Hne]; [lra |].
  left. apply sin_decreasing_1; lra.
Qed.

(** Up to half full the half-angle is at most a right angle, above half
    full at least a right angle. *)
Lemma _theta_lower_half (d y t : R) :
  0 < d -> y <= radius d -> _theta d y = Returns t -> t <= PI / 2.
Proof.
  intros Hd Hy H. pose proof PI_RGT_0.
  assert (Hd' : 0 <= d) by lra.
  assert (HR : 0 < radius d) by (unfold radius; lra).
  destruct (_theta_cases d y Hd') as [[Hy1 E1] | [[Hy1 [Hf1 E1]] | [Hy1 E1]]];
    rewrite E1 in H; injection H as <-; try lra.
  rewrite <- acos_0. apply acos_decreasing_le; try lra.
  - assert (Hq : y / radius d <= 1).
    { apply (Rmult_le_reg_r (radius d)); [lra |].
      unfold Rdiv. rewrite Rmult_assoc, Rinv_l by lra. lra. }
    split_clamp; lra.
  - apply clamp_bounds.
Qed.

Lemma _theta_upper_half (d y t : R) :
  0 < d -> radius d <= y -> _theta d y = Returns t -> PI / 2 <= t.
Proof.
  intros Hd Hy H. pose proof PI_RGT_0.
  assert (Hd' : 0 <= d) by lra.
  assert (HR : 0 < radius d) by (unfold radius; lra).
  destruct (_theta_cases d y Hd') as [[Hy1 E1] | [[Hy1 [Hf1 E1]] | [Hy1 E1]]];
    rewrite E1 in H; injection H as <-; try lra.
  rewrite <- acos_0. apply acos_decreasing_le; try lra.
  - apply clamp_bounds.
  - assert (Hq : 1 <= y / radius d).
    { apply (Rmult_le_reg_r (radius d)); [lra |].
      unfold Rdiv. rewrite Rmult_assoc, Rinv_l by lra. lra. }
    split_clamp; lra.
Qed.

Lemma _theta_half_full : _theta 2 1 = Returns (PI / 2).
Proof.
  destruct (_theta_cases 2 1) as [[Hy E] | [[Hy [Hf E]] | [Hy E]]];
    unfold radius in *; try lra.
  rewrite E. replace (1 - 1 / (2 / 2)) with 0 by field.
  replace (clamp 0) with 0 by (split_clamp; lra).
  now rewrite acos_0.
Qed.

Lemma _theta_full : _theta 2 2 = Returns PI.
Proof.
  destruct (_theta_cases 2 2) as [[Hy E] | [[Hy [Hf E]] | [Hy E]]];
    unfold radius in *; try lra.
  exact E.
Qed.

(** C4, as stated, fails for the top width of a circular section: in a
    pipe of diameter 2 the water surface is 2 wide at depth 1 (half full)
    and 0 wide at depth 2 (full). *)
Lemma C4_circular_top_width_counterexample :
  0 <= 1 <= 2 /\
  top_width (CircularChannel 2) 1 = Returns 2 /\
  top_width (CircularChannel 2) 2 = Returns 0 /\
  ~ (2 <= 0).
Proof.
  simpl. rewrite _theta_half_full, _theta_full. simpl.
  rewrite sin_PI2, sin_PI. unfold radius.
  repeat split; try lra; f_equal; lra.
Qed.

(** C4 (amended): for rectangular, trapezoidal, circular, triangular and
    wide sections with non-negative dimensions and depths
    [0 <= y1 <= y2], area and wetted perimeter do not decrease from [y1]
    to [y2]; neither does the top width, except in a circular section,
    where it does not decrease up to half full ([y2 <= radius]) and does
    not increase from half full on ([radius <= y1]). *)
Theorem C4_geometry_monotone (c : ChannelSection) (y1 y2 : R) :
  nonneg_dimensions c -> 0 <= y1 <= y2 ->
  exists A1 A2 P1 P2 T1 T2,
    area c y1 = Returns A1 /\ area c y2 = Returns A2 /\
    wetted_perimeter c y1 = Returns P1 /\
    wetted_perimeter c y2 = Returns P2 /\
    top_width c y1 = Returns T1 /\ top_width c y2 = Returns T2 /\
    A1 <= A2 /\ P1 <= P2 /\
    match c with
    | CircularChannel d =>
        (y2 <= radius d -> T1 <= T2) /\ (radius d <= y1 -> T2 <= T1)
    | _ => T1 <= T2
    end.
Proof.
  intros Hc Hy. destruct c; simpl in Hc; try contradiction; simpl.
  - do 6 eexists. repeat split; nra.
  - pose proof (sqrt_pos (1 + side_slope * (side_slope * 1))) as Hs.
    destruct Hc as [Hb Hm].
    assert (H1 : 0 <= bottom_width * (y2 - y1)) by (apply Rmult_le_pos; lra).
    assert (H2 : 0 <= side_slope * (y2 - y1)) by (apply Rmult_le_pos; lra).
    assert (H3 : 0 <= side_slope * (y2 - y1) * (y2 + y1))
      by (apply Rmult_le_pos; lra).
    assert (H4 : 0 <= sqrt (1 + side_slope * (side_slope * 1)) * (y2 - y1))
      by (apply Rmult_le_pos; lra).
    do 6 eexists. repeat split; lra.
  - destruct (_theta_returns diameter y1) as [t1 H1].
    destruct (_theta_returns diameter y2) as [t2 H2].
    pose proof (_theta_bounds _ _ _ H1) as B1.
    pose proof (_theta_bounds _ _ _ H2) as B2.
    assert (Ht : t1 <= t2) by (apply (_theta_mono diameter y1 y2); tauto).
    assert (HR : 0 <= radius diameter) by (unfold radius; lra).
    rewrite H1, H2. simpl.
    do 6 eexists. repeat split.
    + apply Rmult_le_compat_l; [nra | apply segment_mono; lra].
    + nra.
    + intros Hlow.
      destruct (Req_dec diameter 0) as [Hz | Hz].
      { unfold radius. rewrite Hz. lra. }
      assert (Hd : 0 < diameter) by lra.
      assert (sin t1 <= sin t2).
      { apply sin_mono_lower; try lra.
        apply (_theta_lower_half diameter y2); assumption. }
      nra.
    + intros Hup.
      destruct (Req_dec diameter 0) as [Hz | Hz].
      { unfold radius. rewrite Hz. lra. }
      assert (Hd : 0 < diameter) by lra.
      assert (sin t2 <= sin t1).
      { apply sin_mono_upper; try lra.
        apply (_theta_upper_half diameter y1); assumption. }
      nra.
  - pose proof (sqrt_pos (1 + side_slope * (side_slope * 1))) as Hs.
    assert (H2 : 0 <= side_slope * (y2 - y1)) by (apply Rmult_le_pos; lra).
    assert (H3 : 0 <= side_slope * (y2 - y1) * (y2 + y1))
      by (apply Rmult_le_pos; lra).
    assert (H4 : 0 <= sqrt (1 + side_slope * (side_slope * 1)) * (y2 - y1))
      by (apply Rmult_le_pos; lra).
    do 6 eexists. repeat split; lra.
  - do 6 eexists. repeat split; lra.
Qed.

Lemma C4_geometry_monotone_witness :
  exists A1 A2 P1 P2 T1 T2,
    area (TrapezoidalChannel 3 2) 1 = Returns A1 /\
    area (TrapezoidalChannel 3 2) 2 = Returns A2 /\
    wetted_perimeter (TrapezoidalChannel 3 2) 1 = Returns P1 /\
    wetted_perimeter (TrapezoidalChannel 3 2) 2 = Returns P2 /\
    top_width (TrapezoidalChannel 3 2) 1 = Returns T1 /\
    top_width (TrapezoidalChannel 3 2) 2 = Returns T2 /\
    A1 <= A2 /\ P1 <= P2 /\ T1 <= T2.
Proof.
  apply (C4_geometry_monotone (TrapezoidalChannel 3 2) 1 2).
  - simpl. lra.
  - lra.
Defined.

(** ** The profile solvers *)

Lemma gvf_march_shape (deriv : R -> outcome R) (dx : R) (steps : nat) :
  forall xi yi xs ys,
    gvf_march deriv dx steps xi yi = Returns (xs, ys) ->
    exists x_rest y_rest,
      xs = xi :: x_rest /\ ys = yi :: y_rest /\
      List.length x_rest = steps /\ List.length y_rest = steps /\
      Forall (fun y => 1 / 1000 <= y) y_rest.
Proof.
  induction steps as [| k IH]; intros xi yi xs ys H; simpl in H.
  - injection H as <- <-. exists [], []. repeat split; constructor.
  - destruct (deriv yi) as [dy_dx |]; [| discriminate]. simpl in H.
    match type of H with
    | context [gvf_march deriv dx k ?x ?y] =>
        destruct (gvf_march deriv dx k x y) as [[xs' ys'] |] eqn:E;
        [| discriminate]
    end.
    simpl in H. injection H as <- <-.
    destruct (IH _ _ _ _ E) as (xr & yr & -> & -> & Lx & Ly & F).
    eexists; eexists. repeat split; simpl; try congruence.
    constructor; [| exact F].
    destruct (Rlt_dec (yi + dy_dx * dx) (1 / 1000)); lra.
Qed.

Lemma gvf_march_returns (deriv : R -> outcome R) (dx : R) (steps : nat) :
  (forall y, returns (deriv y)) ->
  forall xi yi, returns (gvf_march deriv dx steps xi yi).
Proof.
  intros Hd. induction steps as [| k IH]; intros xi yi; simpl.
  - apply returns_Returns.
  - apply returns_bind; [apply Hd | intros dy_dx].
    apply returns_bind; [apply IH | intros; apply returns_Returns].
Qed.

Lemma solve_gvf_profile_shape (deriv : R -> outcome R)
    (y_start distance : R) (num_steps : nat) (direction : string)
    (xs ys : list R) :
  solve_gvf_profile deriv y_start distance num_steps direction
    = Returns (xs, ys) ->
  exists x_rest y_rest,
    xs = 0 :: x_rest /\ ys = y_start :: y_rest /\
    List.length x_rest = num_steps /\ List.length y_rest = num_steps /\
    Forall (fun y => 1 / 1000 <= y) y_rest.
Proof.
  unfold solve_gvf_profile. intros H.
  destruct (pydiv distance (INR num_steps)) as [dx |]; [| discriminate].
  simpl in H. now apply gvf_march_shape in H.
Qed.



(** The Manning derivative on a rectangular section, in closed form. *)
Lemma gvf_derivative_manning_rectangular (w y Q S0 n : R) :
  0 < w -> 0 < y ->
  let V := Q / (w * y) in
  let Sf := (n * V / Rpower (w * y / (w + 2 * y)) (2 / 3)) ^ 2 in
  let fr := V / sqrt (g * (w * y / w)) in
  gvf_derivative_manning (RectangularChannel w) y Q S0 n =
    if Rlt_dec (Rabs (1 - fr ^ 2)) (1 / 10 ^ 10) then Returns 0
    else Returns ((S0 - Sf) / (1 - fr ^ 2)).
Proof.
  intros Hw Hy V Sf fr.
  assert (HA : w * y <> 0) by nra.
  assert (HP : w + 2 * y <> 0) by lra.
  assert (HR : 0 < w * y / (w + 2 * y)).
  { apply Rdiv_lt_0_compat; nra. }
  assert (HD : 0 < w * y / w).
  { apply Rdiv_lt_0_compat; nra. }
  assert (Hg : 0 < g * (w * y / w)) by (unfold g; nra).
  assert (Hs : sqrt (g * (w * y / w)) <> 0).
  { pose proof (sqrt_lt_R0 _ Hg). lra. }
  assert (Hp : Rpower (w * y / (w + 2 * y)) (2 / 3) <> 0).
  { unfold Rpower. pose proof (exp_pos (2 / 3 * ln (w * y / (w + 2 * y)))). lra. }
  unfold gvf_derivative_manning.
  destruct (Rle_dec y 0); [lra |].
  unfold hydraulic_radius. simpl.
  destruct (Req_dec_T (w + 2 * y) 0); [lra |].
  rewrite (pydiv_nonzero (w * y)) by assumption. simpl.
  destruct (Req_dec_T (w * y) 0); [lra |].
  destruct (Req_dec_T w 0); [lra |].
  rewrite (pydiv_nonzero Q) by assumption. simpl.
  rewrite pypow_pos by assumption. simpl.
  rewrite pydiv_nonzero by assumption. simpl.
  unfold gvf_quotient, hydraulic_depth. simpl.
  destruct (Req_dec_T w 0); [lra |].
  rewrite (pydiv_nonzero (w * y)) by assumption. simpl.
  destruct (Rle_dec (w * y / w) 0); [lra |].
  rewrite pysqrt_nonneg by lra. simpl.
  rewrite pydiv_nonzero by assumption. simpl.
  fold V. fold fr.
  destruct (Rlt_dec (Rabs (1 - fr * (fr * 1))) (1 / (10 * (10 * (10 * (10 *
    (10 * (10 * (10 * (10 * (10 * (10 * 1)))))))))))) as [Hlt | Hge].
  - reflexivity.
  - apply pydiv_nonzero. intros Hz. apply Hge. rewrite Hz, Rabs_R0. lra.
Qed.

Lemma gvf_derivative_manning_rectangular_returns (w y Q S0 n : R) :
  0 < w -> returns (gvf_derivative_manning (RectangularChannel w) y Q S0 n).
Proof.
  intros Hw. destruct (Rle_dec y 0) as [Hy | Hy].
  - unfold gvf_derivative_manning.
    destruct (Rle_dec y 0); [apply returns_Returns | contradiction].
  - rewrite gvf_derivative_manning_rectangular by lra. cbv zeta.
    match goal with
    | |- context [Rlt_dec ?a ?b] => destruct (Rlt_dec a b)
    end; apply returns_Returns.
Qed.


(** ** The distance search *)

Lemma distance_search_evals (profile : R -> outcome (list R * list R))
    (direction : string) (y_target max_distance : R) (iterations : nat) :
  forall distance x_last evals,
    (fst (distance_search profile direction y_target max_distance
                          iterations distance x_last evals)
     <= evals + iterations)%nat.
Proof.
  induction iterations as [| k IH]; intros distance x_last evals; simpl.
  - lia.
  - destruct (profile distance) as [[x y] | e]; simpl; [| lia].
    destruct (Rlt_dec (Rabs (last y 0 - y_target)) (1 / 100)); simpl; [lia |].
    destruct (Rlt_dec max_distance
                (adjust_distance direction (last y 0) y_target distance));
      simpl; [lia |].
    specialize (IH (adjust_distance direction (last y 0) y_target distance)
                   (Some (last x 0)) (S evals)).
    lia.
Qed.

Lemma Rpower_ge_1 (x a : R) : 1 <= x -> 0 <= a -> 1 <= Rpower x a.
Proof.
  intros Hx Ha.
  replace 1 with (Rpower 1 a) at 1.
  - apply Rle_Rpower_l; lra.
  - unfold Rpower. rewrite ln_1, Rmult_0_r. apply exp_0.
Qed.

(** One Euler step from depth 2 in a rectangular channel 5 m wide carrying
    20 m3/s on a slope of 0.001 with n = 0.02: the local slope of the
    profile is within a few parts in a thousand. *)
Lemma derivative_at_depth_2 :
  exists dy,
    gvf_derivative_manning (RectangularChannel 5) 2 20 (1 / 1000) (2 / 100)
      = Returns dy /\
    - (1 / 1000) <= dy <= 2 / 1000.
Proof.
  rewrite gvf_derivative_manning_rectangular by lra. cbv zeta.
  set (p := Rpower (5 * 2 / (5 + 2 * 2)) (2 / 3)).
  set (s := sqrt (g * (5 * 2 / 5))).
  assert (Hp : 1 <= p) by (apply Rpower_ge_1; lra).
  assert (Hss : s * s = g * (5 * 2 / 5))
    by (apply sqrt_sqrt; unfold g; lra).
  assert (Hs0 : s <> 0) by (intros Hz; rewrite Hz in Hss; unfold g in Hss; lra).
  assert (Hfr : (20 / (5 * 2) / s) ^ 2 = 4 / (g * (5 * 2 / 5))).
  { rewrite <- Hss. field. exact Hs0. }
  rewrite Hfr.
  assert (Hden : 79 / 100 <= 1 - 4 / (g * (5 * 2 / 5)) <= 80 / 100).
  { unfold g.
    replace (1 - 4 / (981 / 100 * (5 * 2 / 5))) with (781 / 981) by field.
    lra. }
  set (den := 1 - 4 / (g * (5 * 2 / 5))) in *.
  assert (Hf : 0 <= 2 / 100 * (20 / (5 * 2)) / p <= 4 / 100).
  { replace (2 / 100 * (20 / (5 * 2)) / p) with (4 / 100 * / p) by (field; lra).
    assert (0 < / p) by (apply Rinv_0_lt_compat; lra).
    assert (/ p <= 1).
    { rewrite <- Rinv_1. apply Rinv_le_contravar; lra. }
    lra. }
  set (f := 2 / 100 * (20 / (5 * 2)) / p) in *.
  assert (HSf : 0 <= f ^ 2 <= 16 / 10000) by nra.
  destruct (Rlt_dec (Rabs den) (1 / 10 ^ 10)) as [Hlt | Hge].
  - exists 0. split; [reflexivity | lra].
  - eexists. split; [reflexivity |].
    assert (Hi : 0 < / den) by (apply Rinv_0_lt_compat; lra).
    assert (Hi' : / den <= 100 / 79).
    { replace (100 / 79) with (/ (79 / 100)) by field.
      apply Rinv_le_contravar; lra. }
    unfold Rdiv at 1. unfold Rdiv at 3. nra.
Qed.

Lemma distance_search_step (profile : R -> outcome (list R * list R))
    (direction : string) (y_target max_distance : R) (k : nat)
    (distance : R) (x_last : option R) (evals : nat) (x y : list R) :
  profile distance = Returns (x, y) ->
  distance_search profile direction y_target max_distance (S k) distance
                  x_last evals =
    if Rlt_dec (Rabs (last y 0 - y_target)) (1 / 100)
    then (S evals, Returns (Rabs (last x 0)))
    else
      if Rlt_dec max_distance
           (adjust_distance direction (last y 0) y_target distance)
      then (S evals, Returns (Rabs (last x 0)))
      else distance_search profile direction y_target max_distance k
             (adjust_distance direction (last y 0) y_target distance)
             (Some (last x 0)) (S evals).
Proof.
  intros H. simpl. rewrite H. reflexivity.
Qed.

Lemma profile_one_step_from_depth_2 :
  exists dy,
    - (1 / 1000) <= dy <= 2 / 1000 /\
    solve_gvf_profile_manning (RectangularChannel 5) 20 (1 / 1000) (2 / 100)
                              2 20 1 "upstream"
      = Returns ([0; 0 + - (20 / 1)], [2; 2 + dy * - (20 / 1)]).
Proof.
  destruct derivative_at_depth_2 as (dy & Hdy & Hb).
  exists dy. split; [exact Hb |].
  unfold solve_gvf_profile_manning, solve_gvf_profile.
  rewrite pydiv_nonzero by (simpl; lra). simpl.
  rewrite Hdy. simpl.
  destruct (Rlt_dec (2 + dy * - (20 / 1)) (1 / 1000)); [lra | reflexivity].
Qed.

(** C8: no call computes more than 10 profiles; but with
    [y_start = 2], [y_target = 2.2], one step and [max_distance = 10] (a
    rectangular channel 5 m wide, Q = 20, S0 = 0.001, n = 0.02) the first
    trial distance is 20: its profile ends more than 0.01 away from the
    target, the rescaled distance exceeds [max_distance], and the distance
    returned is 20, twice [max_distance]. *)
Theorem C8_distance_exceeds_max_distance :
  (forall channel Q S0 n y_start y_target num_steps max_distance,
      (fst (distance_to_depth_manning_counted channel Q S0 n y_start
              y_target num_steps max_distance) <= 10)%nat) /\
  distance_to_depth_manning (RectangularChannel 5) 20 (1 / 1000) (2 / 100)
                            2 (11 / 5) 1 10 = Returns 20 /\
  (exists xs ys,
      solve_gvf_profile_manning (RectangularChannel 5) 20 (1 / 1000)
                                (2 / 100) 2 20 1 "upstream"
        = Returns (xs, ys) /\
      1 / 100 <= Rabs (last ys 0 - 11 / 5)) /\
  10 < 20.
Proof.
  split; [| split; [| split; [| lra]]].
  - intros. unfold distance_to_depth_manning_counted.
    destruct (Rlt_dec (Rabs (y_start - y_target)) (1 / 1000));
      [simpl; lia |].
    eapply Nat.le_trans; [apply distance_search_evals | simpl; lia].
  - destruct profile_one_step_from_depth_2 as (dy & Hb & Hp).
    unfold distance_to_depth_manning, distance_to_depth_manning_counted.
    assert (E1 : Rabs (2 - 11 / 5) = 1 / 5)
      by (unfold Rabs; destruct (Rcase_abs (2 - 11 / 5)); lra).
    assert (E2 : Rabs (11 / 5 - 2) * 100 = 20)
      by (unfold Rabs; destruct (Rcase_abs (11 / 5 - 2)); lra).
    rewrite E1, E2.
    destruct (Rlt_dec (1 / 5) (1 / 1000)); [lra |].
    destruct (Rlt_dec 2 (11 / 5)); [| lra].
    rewrite (distance_search_step _ _ _ _ _ _ _ _ _ _ Hp). simpl last.
    assert (E3 : Rabs (2 + dy * - (20 / 1) - 11 / 5)
                 = 11 / 5 - (2 + dy * - (20 / 1)))
      by (unfold Rabs; destruct (Rcase_abs (2 + dy * - (20 / 1) - 11 / 5)); lra).
    rewrite E3.
    destruct (Rlt_dec (11 / 5 - (2 + dy * - (20 / 1))) (1 / 100)); [lra |].
    unfold adjust_distance. simpl String.eqb.
    destruct (Rlt_dec (2 + dy * - (20 / 1)) (11 / 5)); [| lra].
    destruct (Rlt_dec 10 (20 * (3 / 2))); [| lra].
    simpl. f_equal.
    unfold Rabs. destruct (Rcase_abs (0 + - (20 / 1))); lra.
  - destruct profile_one_step_from_depth_2 as (dy & Hb & Hp).
    do 2 eexists. split; [exact Hp |]. simpl last.
    unfold Rabs. destruct (Rcase_abs (2 + dy * - (20 / 1) - 11 / 5)); lra.
Qed.

(** What does hold of the distance returned: the profile solver ends its
    [x] array at the trial distance, every rescaled trial distance that is
    used has passed the test against [max_distance], and so the result is
    bounded by [max_distance] as soon as the first estimate is. *)
Lemma gvf_march_last_x (deriv : R -> outcome R) (dx : R) (steps : nat) :
  forall xi yi xs ys,
    gvf_march deriv dx steps xi yi = Returns (xs, ys) ->
    last xs 0 = xi + INR steps * dx.
Proof.
  induction steps as [| k IH]; intros xi yi xs ys H.
  - simpl in H. injection H as <- <-. simpl. ring.
  - simpl in H.
    destruct (deriv yi) as [dy_dx |]; [| discriminate]. simpl in H.
    match type of H with
    | context [gvf_march deriv dx k ?x ?y] =>
        destruct (gvf_march deriv dx k x y) as [[xs' ys'] |] eqn:E;
        [| discriminate]
    end.
    simpl in H. injection H as <- <-.
    destruct (gvf_march_shape _ _ _ _ _ _ _ E) as (xr' & yr' & Ex & _).
    pose proof (IH _ _ _ _ E) as Hl. rewrite Ex in Hl |- *.
    change (last (xi :: (xi + dx) :: xr') 0)
      with (last ((xi + dx) :: xr') 0).
    rewrite Hl, S_INR. ring.
Qed.

Lemma solve_gvf_profile_last_x (deriv : R -> outcome R)
    (y_start distance : R) (num_steps : nat) (direction : string)
    (xs ys : list R) :
  solve_gvf_profile deriv y_start distance num_steps direction
    = Returns (xs, ys) ->
  Rabs (last xs 0) = Rabs distance.
Proof.
  unfold solve_gvf_profile, pydiv. intros H.
  destruct (Req_dec_T (INR num_steps) 0) as [Hz | Hnz]; [discriminate |].
  simpl in H. apply gvf_march_last_x in H. rewrite H.
  destruct (String.eqb direction "upstream").
  - replace (0 + INR num_steps * - (distance / INR num_steps))
      with (- distance) by (field; assumption).
    apply Rabs_Ropp.
  - replace (0 + INR num_steps * (distance / INR num_steps))
      with distance by (field; assumption).
    reflexivity.
Qed.

Lemma adjust_distance_nonneg (direction : string) (y_end y_target d : R) :
  0 <= d -> 0 <= adjust_distance direction y_end y_target d.
Proof.
  intros Hd. unfold adjust_distance.
  destruct (String.eqb direction "upstream");
    match goal with
    | |- context [Rlt_dec ?a ?b] => destruct (Rlt_dec a b)
    end; lra.
Qed.

Lemma distance_search_bounded (profile : R -> outcome (list R * list R))
    (direction : string) (y_target max_distance : R) (iterations : nat) :
  (forall d xs ys, profile d = Returns (xs, ys) ->
                   Rabs (last xs 0) = Rabs d) ->
  forall distance x_last evals v,
    0 <= distance <= max_distance ->
    (forall xl, x_last = Some xl -> Rabs xl <= max_distance) ->
    snd (distance_search profile direction y_target max_distance
                         iterations distance x_last evals) = Returns v ->
    0 <= v <= max_distance.
Proof.
  intros Hprof.
  induction iterations as [| k IH]; intros distance x_last evals v Hd Hx H.
  - simpl in H. destruct x_last as [xl |]; [| discriminate].
    injection H as <-. split; [apply Rabs_pos | now apply Hx].
  - simpl in H.
    destruct (profile distance) as [[x y] | e] eqn:E; [| discriminate].
    assert (Hlast : Rabs (last x 0) <= max_distance).
    { rewrite (Hprof _ _ _ E), Rabs_pos_eq; lra. }
    destruct (Rlt_dec (Rabs (last y 0 - y_target)) (1 / 100)).
    { simpl in H. injection H as <-. split; [apply Rabs_pos | exact Hlast]. }
    destruct (Rlt_dec max_distance
                (adjust_distance direction (last y 0) y_target distance)).
    { simpl in H. injection H as <-. split; [apply Rabs_pos | exact Hlast]. }
    apply (IH _ _ _ _ ) in H; [exact H | |].
    + split; [apply adjust_distance_nonneg; lra | lra].
    + intros xl [= <-]. exact Hlast.
Qed.

Lemma distance_within_max_distance (channel : ChannelSection)
    (Q S0 n y_start y_target : R) (num_steps : nat) (max_distance v : R) :
  Rabs (y_target - y_start) * 100 <= max_distance ->
  distance_to_depth_manning channel Q S0 n y_start y_target num_steps
                            max_distance = Returns v ->
  0 <= v <= max_distance.
Proof.
  intros Hest.
  pose proof (Rabs_pos (y_target - y_start)) as Hpos.
  unfold distance_to_depth_manning, distance_to_depth_manning_counted.
  destruct (Rlt_dec (Rabs (y_start - y_target)) (1 / 1000)).
  - simpl. intros [= <-]. lra.
  - apply distance_search_bounded.
    + intros d xs ys. apply solve_gvf_profile_last_x.
    + lra.
    + intros xl H. discriminate.
Qed.

(** ** Normal depth *)

(** On a horizontal bed Manning's formula yields no discharge at all. *)
Lemma manning_discharge_zero_slope (c : ChannelSection) (y n q : R) :
  manning_discharge c y 0 n = Returns q -> q = 0.
Proof.
  unfold manning_discharge, manning_velocity. rewrite pypow_zero.
  destruct (area c y) as [A |]; [| discriminate]. simpl.
  destruct (hydraulic_radius c y) as [R_ |]; [| discriminate]. simpl.
  destruct (pydiv 1 n) as [inv_n |]; [| discriminate]. simpl.
  destruct (pypow R_ (2 / 3)) as [p |]; [| discriminate]. simpl.
  intros H. injection H as <-. ring.
Qed.

Lemma hydraulic_radius_rectangular (w y : R) :
  0 < w -> 0 < y ->
  hydraulic_radius (RectangularChannel w) y
    = Returns (w * y / (w + 2 * y)) /\
  0 < w * y / (w + 2 * y).
Proof.
  intros Hw Hy. split.
  - unfold hydraulic_radius. simpl.
    destruct (Req_dec_T (w + 2 * y) 0); [lra |].
    apply pydiv_nonzero. assumption.
  - apply Rdiv_lt_0_compat; nra.
Qed.

(** The discharge of a rectangular section at a positive depth. *)
Lemma manning_discharge_rectangular (w y S n : R) :
  0 < w -> 0 < y -> 0 <= S -> n <> 0 ->
  exists v, manning_discharge (RectangularChannel w) y S n
              = Returns (w * y * (1 / n * Rpower (w * y / (w + 2 * y)) (2 / 3) * v)) /\
            0 <= v /\ (0 < S -> 0 < v) /\ (S = 0 -> v = 0).
Proof.
  intros Hw Hy HS Hn.
  destruct (hydraulic_radius_rectangular w y Hw Hy) as [ER HR].
  unfold manning_discharge, manning_velocity. rewrite ER. simpl.
  rewrite pydiv_nonzero by assumption. simpl.
  rewrite pypow_pos by assumption. simpl.
  destruct (Rlt_dec 0 S) as [Hpos | Hnpos].
  - rewrite pypow_pos by assumption. simpl.
    exists (Rpower S (1 / 2)).
    assert (0 < Rpower S (1 / 2)) by (unfold Rpower; apply exp_pos).
    repeat split; try lra; auto.
  - assert (S = 0) by lra. subst S. rewrite pypow_zero. simpl.
    exists 0. repeat split; lra.
Qed.


(** The residual on a horizontal bed: it has no zero. *)
Lemma normal_depth_manning_equation_zero_slope (y : R) :
  normal_depth_manning_equation (RectangularChannel 5) 20 0 (2 / 100) y
    = Returns (if Rle_dec y 0 then 10000000000 else - 20).
Proof.
  unfold normal_depth_manning_equation.
  destruct (Rle_dec y 0); [reflexivity |].
  destruct (manning_discharge_rectangular 5 y 0 (2 / 100))
    as (v & E & _ & _ & Hz); try lra.
  rewrite E, (Hz eq_refl). simpl. f_equal. ring.
Qed.

(** Every way out of [normal_depth_manning] hands back a number once the
    residual can be evaluated everywhere: a failed bracketing is followed
    by the open iteration, whose iterate is returned whatever its status. *)
Lemma normal_depth_manning_returns (sv : Solvers) (c : ChannelSection)
    (Q S n initial_guess max_depth : R) :
  (forall y, returns (normal_depth_manning_equation c Q S n y)) ->
  returns (normal_depth_manning sv c Q S n initial_guess max_depth).
Proof.
  intros Hf. unfold normal_depth_manning.
  set (equation := normal_depth_manning_equation c Q S n) in *.
  assert (Hrest : returns
    (try_except (y_n <- brentq sv equation (1 / 1000) max_depth ;; Returns y_n)
       (result <- fsolve sv equation (max_depth / 2) ;;
        Returns (Rabs (fst result))))).
  { destruct (brentq sv equation (1 / 1000) max_depth) as [y_n | e]; simpl.
    - apply returns_Returns.
    - destruct (fsolve_total sv equation (max_depth / 2) Hf) as [r ->].
      simpl. apply returns_Returns. }
  destruct (fsolve sv equation initial_guess) as [[x ier] | e]; simpl;
    [| exact Hrest].
  destruct (Z.eq_dec ier 1); [| exact Hrest].
  destruct (Rlt_dec 0 x); [apply returns_Returns | exact Hrest].
Qed.

(** The Chezy variant ends in the same way: after a failed bracketing the
    iterate of the open iteration is returned, whatever its status. *)
Lemma normal_depth_chezy_fallback (sv : Solvers) (c : ChannelSection)
    (Q S C initial_guess max_depth x : R) (ier : Z) (e : exn) :
  brentq sv (normal_depth_chezy_equation c Q S C) (1 / 1000) max_depth
    = Raises e ->
  fsolve sv (normal_depth_chezy_equation c Q S C) initial_guess
    = Returns (x, ier) ->
  normal_depth_chezy sv c Q S C initial_guess max_depth = Returns (Rabs x).
Proof.
  intros Hb Hf. unfold normal_depth_chezy. rewrite Hb. simpl.
  rewrite Hf. reflexivity.
Qed.

(** C1: on a horizontal bed (rectangular channel 5 m wide, Q = 20, S = 0,
    n = 0.02) no depth carries the discharge, yet [normal_depth_manning]
    returns a number instead of signalling a failure; and as soon as the
    first open iteration reports anything but convergence, that number is
    the absolute value of the iterate of the fallback open iteration,
    returned without a look at its status flag. *)
Theorem C1_fallback_returns_unvalidated (sv : Solvers) :
  let channel := RectangularChannel 5 in
  let equation := normal_depth_manning_equation channel 20 0 (2 / 100) in
  (forall y, manning_discharge channel y 0 (2 / 100) <> Returns 20) /\
  (exists v, normal_depth_manning sv channel 20 0 (2 / 100) 1 20 = Returns v) /\
  (forall x ier,
      fsolve sv equation 1 = Returns (x, ier) -> ier <> 1%Z ->
      exists x' ier',
        fsolve sv equation (20 / 2) = Returns (x', ier') /\
        normal_depth_manning sv channel 20 0 (2 / 100) 1 20
          = Returns (Rabs x')).
Proof.
  intros channel equation.
  assert (Htot : forall y, returns (equation y)).
  { intros y. unfold equation, channel.
    rewrite normal_depth_manning_equation_zero_slope. apply returns_Returns. }
  split; [| split].
  - intros y H. apply manning_discharge_zero_slope in H. lra.
  - apply normal_depth_manning_returns. exact Htot.
  - intros x ier H1 Hier.
    destruct (fsolve_total sv equation (20 / 2) Htot) as [[x' ier'] H2].
    exists x', ier'. split; [exact H2 |].
    unfold normal_depth_manning. fold channel. fold equation.
    rewrite H1. simpl.
    destruct (Z.eq_dec ier 1); [contradiction |].
    rewrite (brentq_same_sign sv equation (1 / 1000) 20 (- 20) (- 20)).
    + simpl. rewrite H2. reflexivity.
    + unfold equation, channel.
      rewrite normal_depth_manning_equation_zero_slope.
      destruct (Rle_dec (1 / 1000) 0); [lra | reflexivity].
    + unfold equation, channel.
      rewrite normal_depth_manning_equation_zero_slope.
      destruct (Rle_dec 20 0); [lra | reflexivity].
    + lra.
Qed.

Lemma C1_fallback_returns_unvalidated_witness :
  exists v,
    normal_depth_manning minimal_solvers (RectangularChannel 5) 20 0
                         (2 / 100) 1 20 = Returns v /\
    manning_discharge (RectangularChannel 5) v 0 (2 / 100) <> Returns 20.
Proof.
  destruct (C1_fallback_returns_unvalidated minimal_solvers)
    as (Hno & (v & Hv) & _).
  exists v. split; [exact Hv | apply Hno].
Defined.




(** ** The hydraulic-jump facade *)

Lemma froude_number_zero_depth (w Q : R) :
  froude_number (RectangularChannel w) 0 Q = Returns (Fin 0).
Proof.
  unfold froude_number. simpl.
  destruct (Req_dec_T (w * 0) 0); [reflexivity | lra].
Qed.

Lemma sequent_depth_rectangular_zero_depth (Q w : R) :
  sequent_depth_rectangular 0 Q w = Raises ZeroDivisionError.
Proof.
  unfold sequent_depth_rectangular.
  replace (w * 0) with 0 by ring. now rewrite pydiv_zero.
Qed.

(** C3, as stated, fails: for a rectangular channel 4 m wide, Q = 10 and
    an upstream depth of 0 the Froude number is computed (it is 0), the
    sequent depth then divides by the zero flow area, and the facade
    raises instead of returning a mapping that holds the Froude number. *)
Lemma C3_partial_result_lost_counterexample :
  froude_number (RectangularChannel 4) 0 10 = Returns (Fin 0) /\
  (forall sv : Solvers,
      solve_hydraulic_jump_problem sv "rectangular" [("width"%string, PNum 4)]
                                   10 (Some 0) None true true
        = Raises ZeroDivisionError).
Proof.
  split; [apply froude_number_zero_depth |].
  intros sv. unfold solve_hydraulic_jump_problem. simpl.
  rewrite froude_number_zero_depth. simpl.
  rewrite sequent_depth_rectangular_zero_depth. reflexivity.
Qed.

(** C3 (amended): [solve_hydraulic_jump_problem] handles no error per
    field.  With an upstream depth given, a mapping that is returned does
    hold the upstream Froude number under ["froude_1"]; but when the
    sequent depth is asked for and its computation raises, the same
    exception leaves the facade and no mapping is returned, the Froude
    number computed before included. *)
Theorem C3_jump_facade_all_or_nothing (sv : Solvers)
    (channel_type : string) (channel_params : list (string * pyval))
    (channel : ChannelSection) (Q y1 : R) (y2 : option R)
    (find_sequent find_energy_loss : bool) :
  _create_channel channel_type channel_params = Returns channel ->
  (forall results,
      solve_hydraulic_jump_problem sv channel_type channel_params Q
        (Some y1) y2 find_sequent find_energy_loss = Returns results ->
      exists Fr1,
        froude_number channel y1 Q = Returns Fr1 /\
        dict_get results "froude_1" = Some Fr1) /\
  (forall Fr1 e,
      froude_number channel y1 Q = Returns Fr1 ->
      sequent_depth sv channel y1 Q None = Raises e ->
      solve_hydraulic_jump_problem sv channel_type channel_params Q
        (Some y1) y2 true find_energy_loss = Raises e).
Proof.
  intros Hc. split.
  - intros results. unfold solve_hydraulic_jump_problem. rewrite Hc. simpl.
    destruct (froude_number channel y1 Q) as [Fr1 |]; [| discriminate].
    simpl. intros H. exists Fr1. split; [reflexivity |].
    destruct find_sequent.
    + destruct (sequent_depth sv channel y1 Q None) as [y2c |];
        [| discriminate]. simpl in H.
      destruct find_energy_loss.
      * destruct (energy_loss_jump channel y1 y2c Q) as [dE |];
          [| discriminate]. simpl in H.
        destruct (energy_loss_fraction channel y1 y2c Q) as [frac |];
          [| discriminate]. simpl in H.
        destruct y2; simpl in H; injection H as <-; reflexivity.
      * simpl in H. destruct y2; simpl in H; injection H as <-; reflexivity.
    + simpl in H. destruct y2 as [d2 |]; simpl in H.
      * destruct (froude_number channel d2 Q) as [Fr2 |]; [| discriminate].
        simpl in H. injection H as <-. reflexivity.
      * injection H as <-. reflexivity.
  - intros Fr1 e HF HS. unfold solve_hydraulic_jump_problem.
    rewrite Hc. simpl. rewrite HF. simpl. rewrite HS. reflexivity.
Qed.

Lemma C3_jump_facade_all_or_nothing_witness :
  solve_hydraulic_jump_problem minimal_solvers "rectangular"
    [("width"%string, PNum 4)] 10 (Some 0) None true true
    = Raises ZeroDivisionError.
Proof.
  apply (proj2 (C3_jump_facade_all_or_nothing minimal_solvers "rectangular"
                  [("width"%string, PNum 4)] (RectangularChannel 4) 10 0 None
                  true true eq_refl) (Fin 0) ZeroDivisionError).
  - apply froude_number_zero_depth.
  - apply sequent_depth_rectangular_zero_depth.
Defined.

(** ** Sequent depth: the general solver on a rectangular section *)

(** The momentum function of the general solver is exact on a rectangular
    section: half the hydraulic depth is the depth of the centroid. *)
Lemma momentum_rectangular (b Q y : R) :
  0 < b -> 0 < y ->
  momentum (RectangularChannel b) Q y
    = Returns (Q ^ 2 / (g * (b * y)) + b * y * (b * y / b / 2)).
Proof.
  intros Hb Hy. unfold momentum, hydraulic_depth. simpl.
  destruct (Rle_dec y 0); [lra |].
  destruct (Req_dec_T (b * y) 0); [nra |].
  destruct (Req_dec_T b 0); [lra |].
  rewrite pydiv_nonzero by assumption. simpl.
  rewrite pydiv_nonzero by (unfold g; nra).
  reflexivity.
Qed.

Lemma jump_equation_rectangular_total (b Q M1 : R) :
  0 < b ->
  forall y, returns (jump_equation (momentum (RectangularChannel b) Q) M1 y).
Proof.
  intros Hb y. unfold jump_equation.
  destruct (Rle_dec y 0); [apply returns_Returns |].
  rewrite momentum_rectangular by lra. apply returns_Returns.
Qed.

(** The closed form of Belanger, with the facts about it that matter: it
    is positive and conserves the specific momentum. *)
Lemma belanger_conserves_momentum (b y1 Q : R) :
  0 < b -> 0 < y1 -> 0 < Q ->
  let y2 := belanger_closed_form y1 Q b in
  sequent_depth_rectangular y1 Q b = Returns y2 /\
  0 < y2 /\
  Q ^ 2 / (g * (b * y2)) + b * y2 * (b * y2 / b / 2)
    = Q ^ 2 / (g * (b * y1)) + b * y1 * (b * y1 / b / 2).
Proof.
  intros Hb Hy HQ.
  assert (Hg : 0 < g) by (unfold g; lra).
  assert (Hgy : 0 < g * y1) by nra.
  set (sg := sqrt (g * y1)).
  assert (Hsg : sg * sg = g * y1) by (apply sqrt_sqrt; lra).
  assert (Hsg0 : 0 < sg) by (apply sqrt_lt_R0; lra).
  set (Fr1 := Q / (b * y1) / sg).
  assert (HFr : Fr1 * (b * y1) * sg = Q).
  { unfold Fr1. field. split; [lra | split; lra]. }
  assert (HFr0 : 0 < Fr1).
  { unfold Fr1. apply Rdiv_lt_0_compat; [apply Rdiv_lt_0_compat; nra | lra]. }
  assert (HFr2 : Fr1 ^ 2 * (b * b * y1 * y1 * y1 * g) = Q * Q).
  { rewrite <- HFr at 1. rewrite <- HFr.
    replace (Fr1 * (b * y1) * sg * (Fr1 * (b * y1) * sg))
      with (Fr1 ^ 2 * (b * b * y1 * y1) * (sg * sg)) by ring.
    rewrite Hsg. ring. }
  set (s := sqrt (1 + 8 * Fr1 ^ 2)).
  assert (Hk : 0 < 8 * Fr1 ^ 2) by nra.
  assert (Hss : s * s = 1 + 8 * Fr1 ^ 2) by (apply sqrt_sqrt; lra).
  assert (Hs0 : 0 <= s) by apply sqrt_pos.
  assert (Hs1 : 1 < s) by nra.
  assert (Ey : belanger_closed_form y1 Q b = y1 / 2 * (-1 + s)).
  { unfold belanger_closed_form. cbv zeta. fold sg. fold Fr1. fold s. ring. }
  cbv zeta. rewrite Ey. split; [| split].
  - unfold sequent_depth_rectangular.
    rewrite pydiv_nonzero by nra. simpl.
    rewrite pysqrt_nonneg by lra. simpl.
    rewrite pydiv_nonzero by (fold sg; lra). simpl.
    fold sg. fold Fr1.
    replace (Fr1 * (Fr1 * 1)) with (Fr1 ^ 2) by ring.
    rewrite pysqrt_nonneg by lra. reflexivity.
  - nra.
  - set (y2 := y1 / 2 * (-1 + s)).
    assert (Hy2 : 0 < y2) by (unfold y2; nra).
    assert (Hkey : y2 * (y2 + y1) * y1 * g * b * b = 2 * (Q * Q)).
    { rewrite <- HFr2. unfold y2.
      replace (y1 / 2 * (-1 + s) * (y1 / 2 * (-1 + s) + y1))
        with (y1 * y1 / 4 * (s * s - 1)) by field.
      rewrite Hss. field. }
    replace (Q ^ 2) with (y2 * (y2 + y1) * y1 * g * b * b / 2) by lra.
    field. repeat split; lra.
Qed.

(** C7: on a rectangular section of positive width, for positive depth
    and discharge, the general momentum-balance solver returns the sequent
    depth of the closed-form Belanger formula, which is also what
    [sequent_depth_rectangular] returns: the starting guess of the general
    solver is that value, and it is an exact zero of the momentum
    residual. *)
Theorem C7_general_solver_matches_belanger (sv : Solvers) (b y1 Q : R) :
  0 < b -> 0 < y1 -> 0 < Q ->
  exists y2,
    sequent_depth_general sv (RectangularChannel b) y1 Q None = Returns y2 /\
    sequent_depth_rectangular y1 Q b
      = Returns (belanger_closed_form y1 Q b) /\
    Rabs (y2 - belanger_closed_form y1 Q b) < 1 / 10 ^ 6.
Proof.
  intros Hb Hy HQ.
  destruct (belanger_conserves_momentum b y1 Q Hb Hy HQ)
    as (Hrect & Hy2 & Hmom).
  set (y2 := belanger_closed_form y1 Q b) in *.
  exists y2. split; [| split; [exact Hrect |]].
  - unfold sequent_depth_general.
    rewrite momentum_rectangular by assumption. simpl.
    destruct (Rlt_dec 0 b); [| lra].
    rewrite pydiv_nonzero by lra. simpl.
    replace (b * y1 / b) with y1 by (field; lra).
    rewrite Hrect. simpl.
    set (M1 := Q * (Q * 1) / (g * (b * y1)) + b * y1 * (y1 / 2)).
    set (equation := jump_equation (momentum (RectangularChannel b) Q) M1).
    assert (Hroot : equation y2 = Returns 0).
    { unfold equation, jump_equation.
      destruct (Rle_dec y2 0); [lra |].
      rewrite momentum_rectangular by assumption. simpl. f_equal.
      unfold M1. simpl in Hmom. rewrite Hmom.
      replace (b * y1 / b) with y1 by (field; lra). ring. }
    rewrite (fsolve_at_root sv equation y2
               (jump_equation_rectangular_total b Q M1 Hb) Hroot).
    simpl. f_equal. apply Rabs_pos_eq. lra.
  - replace (y2 - y2) with 0 by ring. rewrite Rabs_R0.
    apply Rdiv_lt_0_compat; [lra | apply pow_lt; lra].
Qed.

Lemma C7_general_solver_matches_belanger_witness :
  exists y2,
    sequent_depth_general minimal_solvers (RectangularChannel 4) (1 / 2) 10
                          None = Returns y2 /\
    sequent_depth_rectangular (1 / 2) 10 4
      = Returns (belanger_closed_form (1 / 2) 10 4) /\
    Rabs (y2 - belanger_closed_form (1 / 2) 10 4) < 1 / 10 ^ 6.
Proof.
  apply (C7_general_solver_matches_belanger minimal_solvers 4 (1 / 2) 10);
    lra.
Defined.

(** * Further properties of the code *)

(** ** Geometry *)

(** X1: a compound channel given no top section has, at every depth, the
    area, the wetted perimeter and the top width of its bottom section:
    above the break depth the part [A(depth) - A(break)] is added back to
    [A(break)]. *)
Theorem compound_without_top_is_bottom_section
    (bottom : ChannelSection) (break_depth y : R) :
  area (CompoundChannel bottom break_depth None) y = area bottom y /\
  wetted_perimeter (CompoundChannel bottom break_depth None) y
    = wetted_perimeter bottom y /\
  top_width (CompoundChannel bottom break_depth None) y = top_width bottom y.
Proof.
  simpl. destruct (Rle_dec y break_depth); [repeat split |].
  repeat split.
  destruct (area_returns bottom break_depth) as [Ab ->].
  destruct (area_returns bottom y) as [Af ->]. simpl.
  f_equal. ring.
Qed.

(** X2: in a rectangular channel of positive width the hydraulic radius at
    a positive depth is positive, smaller than the depth and smaller than
    half the width. *)
Theorem hydraulic_radius_rectangular_bounds (w y : R) :
  0 < w -> 0 < y ->
  exists R_,
    hydraulic_radius (RectangularChannel w) y = Returns R_ /\
    0 < R_ /\ R_ < y /\ R_ < w / 2.
Proof.
  intros Hw Hy.
  destruct (hydraulic_radius_rectangular w y Hw Hy) as [E Hpos].
  exists (w * y / (w + 2 * y)). split; [exact E | split; [exact Hpos |]].
  assert (Hi : 0 < / (w + 2 * y)) by (apply Rinv_0_lt_compat; lra).
  split.
  - apply (Rmult_lt_reg_r (w + 2 * y)); [lra |].
    unfold Rdiv. rewrite Rmult_assoc, Rinv_l by lra. nra.
  - apply (Rmult_lt_reg_r (w + 2 * y)); [lra |].
    unfold Rdiv at 1. rewrite Rmult_assoc, Rinv_l by lra. nra.
Qed.

Lemma hydraulic_radius_rectangular_bounds_witness :
  exists R_,
    hydraulic_radius (RectangularChannel 5) 2 = Returns R_ /\
    0 < R_ /\ R_ < 2 /\ R_ < 5 / 2.
Proof.
  apply (hydraulic_radius_rectangular_bounds 5 2); lra.
Defined.

(** ** Uniform flow *)

Lemma Rpower_half_of_square (x : R) : 0 < x -> Rpower (x ^ 2) (1 / 2) = x.
Proof.
  intros Hx. replace (1 / 2) with (/ 2) by lra.
  rewrite Rpower_sqrt by (apply pow_lt; exact Hx).
  apply sqrt_pow2. lra.
Qed.

Lemma Rpower_half_squared (S : R) : 0 < S -> Rpower S (1 / 2) ^ 2 = S.
Proof.
  intros HS. replace (1 / 2) with (/ 2) by lra.
  rewrite Rpower_sqrt by assumption.
  simpl. rewrite Rmult_1_r. apply sqrt_sqrt. lra.
Qed.

Lemma Rpower_pos (x a : R) : 0 < Rpower x a.
Proof. unfold Rpower. apply exp_pos. Qed.

(** X3: the slope returned by [critical_slope_manning] for a depth [y_c]
    makes that depth the uniform-flow depth of the discharge: Manning's
    discharge at [y_c] on that slope is Q again. *)
Theorem critical_slope_manning_round_trip (sv : Solvers)
    (channel : ChannelSection) (Q n y_c A R_ : R) :
  0 < n -> 0 <= Q ->
  area channel y_c = Returns A -> 0 < A ->
  hydraulic_radius channel y_c = Returns R_ -> 0 < R_ ->
  exists S_c,
    critical_slope_manning sv channel Q n (Some y_c) = Returns S_c /\
    0 <= S_c /\
    manning_discharge channel y_c S_c n = Returns Q.
Proof.
  intros Hn HQ HA HApos HR HRpos.
  pose proof (Rpower_pos R_ (2 / 3)) as Hp.
  set (p := Rpower R_ (2 / 3)) in *.
  set (x := Q / A * n / p).
  assert (Hx : 0 <= x).
  { unfold x. apply Rmult_le_pos; [| left; apply Rinv_0_lt_compat; lra].
    apply Rmult_le_pos; [| lra].
    apply Rmult_le_pos; [lra | left; apply Rinv_0_lt_compat; lra]. }
  exists (x ^ 2). split; [| split].
  - unfold critical_slope_manning. simpl. rewrite HA, HR. simpl.
    rewrite pydiv_nonzero by lra. simpl.
    rewrite pypow_pos by assumption. simpl.
    rewrite pydiv_nonzero by (fold p; lra). reflexivity.
  - apply pow2_ge_0.
  - unfold manning_discharge, manning_velocity. rewrite HA, HR. simpl.
    rewrite pydiv_nonzero by lra. simpl.
    rewrite pypow_pos by assumption. simpl. fold p.
    destruct (Req_dec x 0) as [Hz | Hnz].
    + replace (x * (x * 1)) with 0 by (rewrite Hz; ring).
      rewrite pypow_zero. simpl. f_equal.
      assert (HQ0 : Q = 0).
      { unfold x in Hz.
        assert (E : Q = Q / A * n / p * (A * p / n)) by (field; lra).
        rewrite E, Hz. ring. }
      rewrite HQ0. ring.
    + assert (Hxpos : 0 < x) by lra.
      replace (x * (x * 1)) with (x ^ 2) by ring.
      rewrite pypow_pos by (apply pow_lt; exact Hxpos).
      rewrite Rpower_half_of_square by assumption. simpl.
      f_equal. unfold x. field. lra.
Qed.

Lemma critical_slope_manning_round_trip_witness :
  exists S_c,
    critical_slope_manning minimal_solvers (RectangularChannel 5) 20
                           (2 / 100) (Some 1) = Returns S_c /\
    0 <= S_c /\
    manning_discharge (RectangularChannel 5) 1 S_c (2 / 100) = Returns 20.
Proof.
  apply (critical_slope_manning_round_trip minimal_solvers
           (RectangularChannel 5) 20 (2 / 100) 1 (5 * 1)
           (5 * 1 / (5 + 2 * 1))); try lra.
  - reflexivity.
  - apply (proj1 (hydraulic_radius_rectangular 5 1 ltac:(lra) ltac:(lra))).
Defined.

(** X4: the same round trip for the Chezy law: on the slope returned by
    [critical_slope_chezy] the Chezy discharge at [y_c] is Q. *)
Theorem critical_slope_chezy_round_trip (sv : Solvers)
    (channel : ChannelSection) (Q C y_c A R_ : R) :
  0 < C -> 0 <= Q ->
  area channel y_c = Returns A -> 0 < A ->
  hydraulic_radius channel y_c = Returns R_ -> 0 < R_ ->
  exists S_c,
    critical_slope_chezy sv channel Q C (Some y_c) = Returns S_c /\
    0 <= S_c /\
    chezy_discharge channel y_c S_c C = Returns Q.
Proof.
  intros HC HQ HA HApos HR HRpos.
  assert (Hs : 0 < sqrt R_) by (apply sqrt_lt_R0; exact HRpos).
  set (s := sqrt R_) in *.
  set (x := Q / A / (C * s)).
  assert (HCs : 0 < C * s) by nra.
  assert (Hx : 0 <= x).
  { unfold x. apply Rmult_le_pos; [| left; apply Rinv_0_lt_compat; lra].
    apply Rmult_le_pos; [lra | left; apply Rinv_0_lt_compat; lra]. }
  exists (x ^ 2). split; [| split].
  - unfold critical_slope_chezy. simpl. rewrite HA, HR. simpl.
    rewrite pydiv_nonzero by lra. simpl.
    rewrite pysqrt_nonneg by lra. simpl. fold s.
    rewrite pydiv_nonzero by lra. reflexivity.
  - apply pow2_ge_0.
  - unfold chezy_discharge, chezy_velocity. rewrite HA, HR. simpl.
    assert (Hnn : 0 <= R_ * (x * (x * 1))) by nra.
    rewrite pysqrt_nonneg by exact Hnn. simpl. f_equal.
    replace (R_ * (x * (x * 1))) with ((s * x) * (s * x)).
    + rewrite sqrt_square by nra. unfold x. field. lra.
    + replace (s * x * (s * x)) with (s * s * (x * (x * 1))) by ring.
      unfold s. rewrite sqrt_sqrt by lra. reflexivity.
Qed.

Lemma critical_slope_chezy_round_trip_witness :
  exists S_c,
    critical_slope_chezy minimal_solvers (RectangularChannel 5) 20 50
                         (Some 1) = Returns S_c /\
    0 <= S_c /\
    chezy_discharge (RectangularChannel 5) 1 S_c 50 = Returns 20.
Proof.
  apply (critical_slope_chezy_round_trip minimal_solvers
           (RectangularChannel 5) 20 50 1 (5 * 1)
           (5 * 1 / (5 + 2 * 1))); try lra.
  - reflexivity.
  - apply (proj1 (hydraulic_radius_rectangular 5 1 ltac:(lra) ltac:(lra))).
Defined.

(** X5: the roughness returned by [manning_n_from_depth] reproduces the
    discharge: Manning's discharge at the same depth and slope with that
    roughness is Q. *)
Theorem manning_n_from_depth_round_trip
    (channel : ChannelSection) (Q depth S A R_ : R) :
  0 < Q -> 0 < S ->
  area channel depth = Returns A -> 0 < A ->
  hydraulic_radius channel depth = Returns R_ -> 0 < R_ ->
  exists n,
    manning_n_from_depth channel Q depth S = Returns n /\
    0 < n /\
    manning_discharge channel depth S n = Returns Q.
Proof.
  intros HQ HS HA HApos HR HRpos.
  pose proof (Rpower_pos R_ (2 / 3)) as Hp.
  pose proof (Rpower_pos S (1 / 2)) as Hs.
  set (p := Rpower R_ (2 / 3)) in *.
  set (s := Rpower S (1 / 2)) in *.
  assert (HV : 0 < Q / A) by (apply Rdiv_lt_0_compat; lra).
  exists (p * s / (Q / A)). split; [| split].
  - unfold manning_n_from_depth. rewrite HA, HR. simpl.
    rewrite pydiv_nonzero by lra. simpl.
    rewrite !pypow_pos by assumption. simpl.
    apply pydiv_nonzero. lra.
  - apply Rdiv_lt_0_compat; [nra | lra].
  - assert (Hn : 0 < p * s / (Q / A)) by (apply Rdiv_lt_0_compat; [nra | lra]).
    unfold manning_discharge, manning_velocity. rewrite HA, HR. simpl.
    rewrite pydiv_nonzero by lra. simpl.
    rewrite !pypow_pos by assumption. simpl. fold p. fold s.
    f_equal. field. repeat split; lra.
Qed.

Lemma manning_n_from_depth_round_trip_witness :
  exists n,
    manning_n_from_depth (RectangularChannel 5) 20 2 (1 / 1000) = Returns n /\
    0 < n /\
    manning_discharge (RectangularChannel 5) 2 (1 / 1000) n = Returns 20.
Proof.
  apply (manning_n_from_depth_round_trip (RectangularChannel 5) 20 2
           (1 / 1000) (5 * 2) (5 * 2 / (5 + 2 * 2))); try lra.
  - reflexivity.
  - apply (proj1 (hydraulic_radius_rectangular 5 2 ltac:(lra) ltac:(lra))).
Defined.

Lemma manning_discharge_rectangular_value (w y S n : R) :
  0 < w -> 0 < y -> 0 <= S -> n <> 0 ->
  manning_discharge (RectangularChannel w) y S n
    = Returns (w * y * (1 / n * Rpower (w * y / (w + 2 * y)) (2 / 3)
                        * slope_factor S)).
Proof.
  intros Hw Hy HS Hn.
  destruct (hydraulic_radius_rectangular w y Hw Hy) as [ER HR].
  unfold manning_discharge, manning_velocity, slope_factor.
  rewrite ER. simpl.
  rewrite pydiv_nonzero by assumption. simpl.
  rewrite pypow_pos by assumption. simpl.
  destruct (Rlt_dec 0 S) as [Hpos | Hnpos].
  - rewrite pypow_pos by assumption. reflexivity.
  - assert (S = 0) by lra. subst S. rewrite pypow_zero. reflexivity.
Qed.

(** X6: in a rectangular channel Manning's discharge does not decrease
    with the depth, and on a positive slope it increases strictly: a given
    discharge has at most one normal depth. *)
Theorem manning_discharge_rectangular_increasing (w S n y1 y2 q1 q2 : R) :
  0 < w -> 0 <= S -> 0 < n -> 0 < y1 -> y1 <= y2 ->
  manning_discharge (RectangularChannel w) y1 S n = Returns q1 ->
  manning_discharge (RectangularChannel w) y2 S n = Returns q2 ->
  0 <= q1 /\ q1 <= q2 /\ (0 < S -> y1 < y2 -> q1 < q2).
Proof.
  intros Hw HS Hn Hy1 Hy12 H1 H2.
  rewrite manning_discharge_rectangular_value in H1, H2 by lra.
  injection H1 as <-. injection H2 as <-.
  destruct (hydraulic_radius_rectangular w y1 Hw Hy1) as [_ HR1].
  assert (HR12 : w * y1 / (w + 2 * y1) <= w * y2 / (w + 2 * y2)).
  { apply (Rmult_le_reg_r ((w + 2 * y1) * (w + 2 * y2))); [nra |].
    replace (w * y1 / (w + 2 * y1) * ((w + 2 * y1) * (w + 2 * y2)))
      with (w * y1 * (w + 2 * y2)) by (field; lra).
    replace (w * y2 / (w + 2 * y2) * ((w + 2 * y1) * (w + 2 * y2)))
      with (w * y2 * (w + 2 * y1)) by (field; lra).
    nra. }
  pose proof (Rpower_pos (w * y1 / (w + 2 * y1)) (2 / 3)) as Hp1.
  assert (Hp12 : Rpower (w * y1 / (w + 2 * y1)) (2 / 3)
                 <= Rpower (w * y2 / (w + 2 * y2)) (2 / 3))
    by (apply Rle_Rpower_l; lra).
  set (p1 := Rpower (w * y1 / (w + 2 * y1)) (2 / 3)) in *.
  set (p2 := Rpower (w * y2 / (w + 2 * y2)) (2 / 3)) in *.
  assert (Hv : 0 <= slope_factor S).
  { unfold slope_factor. destruct (Rlt_dec 0 S); [| lra].
    left. apply Rpower_pos. }
  set (v := slope_factor S) in *.
  assert (Hin : 0 < 1 / n) by (apply Rdiv_lt_0_compat; lra).
  set (k := 1 / n) in *.
  assert (Hyp : y1 * p1 <= y2 * p2) by nra.
  assert (Hkv : 0 <= w * k * v).
  { apply Rmult_le_pos; [nra | exact Hv]. }
  replace (w * y1 * (k * p1 * v)) with (w * k * v * (y1 * p1)) by ring.
  replace (w * y2 * (k * p2 * v)) with (w * k * v * (y2 * p2)) by ring.
  split; [| split].
  - apply Rmult_le_pos; [exact Hkv | nra].
  - apply Rmult_le_compat_l; assumption.
  - intros HSpos Hlt.
    assert (Hvpos : 0 < v).
    { unfold v, slope_factor. destruct (Rlt_dec 0 S); [| lra].
      apply Rpower_pos. }
    apply Rmult_lt_compat_l; [| nra].
    apply Rmult_lt_0_compat; [nra | exact Hvpos].
Qed.

Lemma manning_discharge_rectangular_increasing_witness :
  exists q1 q2,
    manning_discharge (RectangularChannel 5) 1 (1 / 1000) (2 / 100)
      = Returns q1 /\
    manning_discharge (RectangularChannel 5) 2 (1 / 1000) (2 / 100)
      = Returns q2 /\
    0 <= q1 /\ q1 < q2.
Proof.
  do 2 eexists.
  split; [apply manning_discharge_rectangular_value; lra |].
  split; [apply manning_discharge_rectangular_value; lra |].
  destruct (manning_discharge_rectangular_increasing 5 (1 / 1000) (2 / 100)
              1 2 _ _ ltac:(lra) ltac:(lra) ltac:(lra) ltac:(lra) ltac:(lra)
              (manning_discharge_rectangular_value 5 1 (1 / 1000) (2 / 100)
                 ltac:(lra) ltac:(lra) ltac:(lra) ltac:(lra))
              (manning_discharge_rectangular_value 5 2 (1 / 1000) (2 / 100)
                 ltac:(lra) ltac:(lra) ltac:(lra) ltac:(lra)))
    as (H0 & _ & Hlt).
  split; [exact H0 | apply Hlt; lra].
Defined.

(** ** Critical flow *)



Lemma froude_number_at_critical_root (channel : ChannelSection) (Q y : R) :
  0 < Q ->
  critical_depth_equation channel Q y = Returns 0 ->
  froude_number channel y Q = Returns (Fin 1).
Proof.
  intros HQ. unfold critical_depth_equation, froude_number, hydraulic_depth.
  destruct (Rle_dec y 0); [intros [= H]; lra |].
  destruct (area channel y) as [A |]; [| discriminate].
  destruct (top_width channel y) as [T |]; [| discriminate]. cbn [bind].
  destruct (Rle_dec A 0); [intros [= H]; lra |].
  destruct (Rle_dec T 0); [intros [= H]; lra |].
  assert (HA3 : 0 < A ^ 3) by (apply pow_lt; lra).
  assert (Hg : 0 < g) by (unfold g; lra).
  rewrite pydiv_nonzero by nra. cbn [bind]. intros [= Hroot].
  assert (Hkey : Q ^ 2 * T = g * A ^ 3).
  { assert (E : Q ^ 2 * T / (g * A ^ 3) = 1) by (simpl; lra).
    apply (Rmult_eq_compat_r (g * A ^ 3)) in E.
    unfold Rdiv in E. rewrite Rmult_assoc, Rinv_l in E by nra. lra. }
  destruct (Req_dec_T A 0); [lra |].
  rewrite pydiv_nonzero by lra. cbn [bind].
  destruct (Req_dec_T T 0); [lra |].
  rewrite pydiv_nonzero by lra. cbn [bind].
  assert (HD : 0 < A / T) by (apply Rdiv_lt_0_compat; lra).
  destruct (Req_dec_T (A / T) 0); [lra |].
  rewrite pysqrt_nonneg by nra. cbn [bind].
  assert (HV : 0 < Q / A) by (apply Rdiv_lt_0_compat; lra).
  assert (Hsq : g * (A / T) = Q / A * (Q / A)).
  { apply (Rmult_eq_reg_r (A * A * T)); [| nra].
    replace (g * (A / T) * (A * A * T)) with (g * A ^ 3) by (field; lra).
    replace (Q / A * (Q / A) * (A * A * T)) with (Q ^ 2 * T) by (field; lra).
    lra. }
  rewrite Hsq, sqrt_square by lra.
  rewrite pydiv_nonzero by lra. cbn [bind].
  do 2 f_equal. field. lra.
Qed.

(** X8: at every depth where the residual of [critical_depth] vanishes
    (for a positive discharge) the Froude number is exactly 1. *)
Theorem froude_number_is_one_at_critical_root
    (channel : ChannelSection) (Q y : R) :
  0 < Q ->
  critical_depth_equation channel Q y = Returns 0 ->
  froude_number channel y Q = Returns (Fin 1).
Proof.
  intros HQ. unfold critical_depth_equation, froude_number, hydraulic_depth.
  destruct (Rle_dec y 0); [intros [= H]; lra |].
  destruct (area channel y) as [A |]; [| discriminate].
  destruct (top_width channel y) as [T |]; [| discriminate]. cbn [bind].
  destruct (Rle_dec A 0); [intros [= H]; lra |].
  destruct (Rle_dec T 0); [intros [= H]; lra |].
  assert (HA3 : 0 < A ^ 3) by (apply pow_lt; lra).
  assert (Hg : 0 < g) by (unfold g; lra).
  rewrite pydiv_nonzero by nra. cbn [bind]. intros [= Hroot].
  assert (Hkey : Q ^ 2 * T = g * A ^ 3).
  { assert (E : Q ^ 2 * T / (g * A ^ 3) = 1) by (simpl; lra).
    apply (Rmult_eq_compat_r (g * A ^ 3)) in E.
    unfold Rdiv in E. rewrite Rmult_assoc, Rinv_l in E by nra. lra. }
  destruct (Req_dec_T A 0); [lra |].
  rewrite pydiv_nonzero by lra. cbn [bind].
  destruct (Req_dec_T T 0); [lra |].
  rewrite pydiv_nonzero by lra. cbn [bind].
  assert (HD : 0 < A / T) by (apply Rdiv_lt_0_compat; lra).
  destruct (Req_dec_T (A / T) 0); [lra |].
  rewrite pysqrt_nonneg by nra. cbn [bind].
  assert (HV : 0 < Q / A) by (apply Rdiv_lt_0_compat; lra).
  assert (Hsq : g * (A / T) = Q / A * (Q / A)).
  { apply (Rmult_eq_reg_r (A * A * T)); [| nra].
    replace (g * (A / T) * (A * A * T)) with (g * A ^ 3) by (field; lra).
    replace (Q / A * (Q / A) * (A * A * T)) with (Q ^ 2 * T) by (field; lra).
    lra. }
  rewrite Hsq, sqrt_square by lra.
  rewrite pydiv_nonzero by lra. cbn [bind].
  do 2 f_equal. field. lra.
Qed.

(** A rectangular channel 1 m wide carrying 3564.3 m3/s is critical at a
    depth of 109 m: there [Q^2 = g * b^2 * y^3] holds exactly. *)
Lemma critical_root_example :
  critical_depth_equation (RectangularChannel 1) (35643 / 10) 109
    = Returns 0.
Proof.
  unfold critical_depth_equation. simpl.
  destruct (Rle_dec 109 0); [lra |].
  destruct (Rle_dec (1 * 109) 0); [lra |].
  destruct (Rle_dec 1 0); [lra |].
  rewrite pydiv_nonzero by (unfold g; lra). simpl.
  f_equal. unfold g. field.
Qed.

Lemma froude_number_is_one_at_critical_root_witness :
  froude_number (RectangularChannel 1) 109 (35643 / 10) = Returns (Fin 1).
Proof.
  apply froude_number_is_one_at_critical_root;
    [lra | exact critical_root_example].
Defined.

(** X9: where the Froude number is 1 the specific energy is the depth plus
    half the hydraulic depth (one and a half times the depth in a
    rectangular channel). *)
Theorem specific_energy_at_critical_flow
    (channel : ChannelSection) (Q y : R) :
  froude_number channel y Q = Returns (Fin 1) ->
  exists D,
    hydraulic_depth channel y = Returns D /\ 0 < D /\
    specific_energy channel y Q = Returns (Fin (y + D / 2)).
Proof.
  unfold froude_number, specific_energy.
  destruct (area channel y) as [A |] eqn:EA; [| discriminate]. simpl.
  destruct (Req_dec_T A 0); [intros [= H]; lra |].
  rewrite pydiv_nonzero by assumption. simpl.
  destruct (hydraulic_depth channel y) as [D |]; [| discriminate]. simpl.
  destruct (Req_dec_T D 0); [discriminate |].
  unfold pysqrt. destruct (Rlt_dec (g * D) 0); [discriminate |]. simpl.
  unfold pydiv.
  destruct (Req_dec_T (sqrt (g * D)) 0); [discriminate |].
  intros [= H].
  assert (Hg : 0 < g) by (unfold g; lra).
  assert (HD : 0 < D) by nra.
  exists D. split; [reflexivity | split; [exact HD |]].
  do 2 f_equal.
  assert (HV : Q / A = sqrt (g * D)).
  { apply (Rmult_eq_compat_r (sqrt (g * D))) in H.
    unfold Rdiv in H at 1.
    rewrite Rmult_assoc, Rinv_l in H by assumption. lra. }
  rewrite HV. simpl. rewrite Rmult_1_r, sqrt_sqrt by nra.
  field. lra.
Qed.

Lemma specific_energy_at_critical_flow_witness :
  exists D,
    hydraulic_depth (RectangularChannel 1) 109 = Returns D /\ 0 < D /\
    specific_energy (RectangularChannel 1) 109 (35643 / 10)
      = Returns (Fin (109 + D / 2)).
Proof.
  apply specific_energy_at_critical_flow.
  apply froude_number_at_critical_root; [lra | exact critical_root_example].
Defined.

(** ** Hydraulic jump *)

(** What [sequent_depth_rectangular] computes for positive arguments: the
    upstream Froude number [Fr1] and the positive depth [y2] with
    [y1 * y2 * (y1 + y2) = 2 * Q^2 / (g * b^2)]. *)
Lemma sequent_depth_rectangular_facts (b y1 Q : R) :
  0 < b -> 0 < y1 -> 0 < Q ->
  exists y2 Fr1,
    sequent_depth_rectangular y1 Q b = Returns y2 /\
    0 < y2 /\
    y2 * (y2 + y1) * y1 * (g * b * b) = 2 * (Q * Q) /\
    Fr1 = Q / (b * y1) / sqrt (g * y1) /\
    0 < Fr1 /\
    Fr1 * Fr1 * (b * b * y1 * y1 * y1 * g) = Q * Q.
Proof.
  intros Hb Hy HQ.
  assert (Hg : 0 < g) by (unfold g; lra).
  assert (Hgy : 0 < g * y1) by nra.
  set (sg := sqrt (g * y1)).
  assert (Hsg : sg * sg = g * y1) by (apply sqrt_sqrt; lra).
  assert (Hsg0 : 0 < sg) by (apply sqrt_lt_R0; lra).
  set (Fr1 := Q / (b * y1) / sg).
  assert (HFr : Fr1 * (b * y1) * sg = Q).
  { unfold Fr1. field. split; [lra | split; lra]. }
  assert (HFr0 : 0 < Fr1).
  { unfold Fr1. apply Rdiv_lt_0_compat; [apply Rdiv_lt_0_compat; nra | lra]. }
  assert (HFr2 : Fr1 * Fr1 * (b * b * y1 * y1 * y1 * g) = Q * Q).
  { rewrite <- HFr at 1. rewrite <- HFr.
    replace (Fr1 * (b * y1) * sg * (Fr1 * (b * y1) * sg))
      with (Fr1 * Fr1 * (b * b * y1 * y1) * (sg * sg)) by ring.
    rewrite Hsg. ring. }
  set (s := sqrt (1 + 8 * Fr1 ^ 2)).
  assert (Hk : 0 < 8 * Fr1 ^ 2) by nra.
  assert (Hss : s * s = 1 + 8 * Fr1 ^ 2) by (apply sqrt_sqrt; lra).
  assert (Hs0 : 0 <= s) by apply sqrt_pos.
  assert (Hs1 : 1 < s) by nra.
  exists (y1 / 2 * (-1 + s)), Fr1.
  split; [| split; [| split; [| split; [| split]]]].
  - unfold sequent_depth_rectangular.
    rewrite pydiv_nonzero by nra. simpl.
    rewrite pysqrt_nonneg by lra. simpl.
    rewrite pydiv_nonzero by (fold sg; lra). simpl.
    fold sg. fold Fr1.
    replace (Fr1 * (Fr1 * 1)) with (Fr1 ^ 2) by ring.
    rewrite pysqrt_nonneg by lra. reflexivity.
  - nra.
  - rewrite <- HFr2.
    replace (y1 / 2 * (-1 + s) * (y1 / 2 * (-1 + s) + y1))
      with (y1 * y1 / 4 * (s * s - 1)) by field.
    rewrite Hss. field.
  - reflexivity.
  - exact HFr0.
  - exact HFr2.
Qed.

Lemma froude_number_rectangular_value (b y Q : R) :
  0 < b -> 0 < y ->
  froude_number (RectangularChannel b) y Q
    = Returns (Fin (Q / (b * y) / sqrt (g * y))).
Proof.
  intros Hb Hy. unfold froude_number, hydraulic_depth. simpl.
  assert (Hg : 0 < g) by (unfold g; lra).
  destruct (Req_dec_T (b * y) 0); [nra |].
  rewrite pydiv_nonzero by assumption. simpl.
  destruct (Req_dec_T b 0); [lra |].
  rewrite pydiv_nonzero by assumption. simpl.
  replace (b * y / b) with y by (field; lra).
  destruct (Req_dec_T y 0); [lra |].
  rewrite pysqrt_nonneg by nra. simpl.
  assert (0 < sqrt (g * y)) by (apply sqrt_lt_R0; nra).
  rewrite pydiv_nonzero by lra. reflexivity.
Qed.

(** X10: for a positive width, depth and discharge the closed-form
    sequent depth is positive and carries the same specific momentum,
    as computed by the closure [momentum] of [sequent_depth_general], as
    the given depth. *)
Theorem sequent_depth_rectangular_conserves_momentum (b y1 Q : R) :
  0 < b -> 0 < y1 -> 0 < Q ->
  exists y2 M,
    sequent_depth_rectangular y1 Q b = Returns y2 /\ 0 < y2 /\
    momentum (RectangularChannel b) Q y1 = Returns M /\
    momentum (RectangularChannel b) Q y2 = Returns M.
Proof.
  intros Hb Hy HQ.
  destruct (belanger_conserves_momentum b y1 Q Hb Hy HQ) as (E & Hpos & HM).
  eexists. eexists. split; [exact E |]. split; [exact Hpos |].
  split; [apply momentum_rectangular; assumption |].
  rewrite momentum_rectangular by assumption. f_equal. exact HM.
Qed.

Lemma sequent_depth_rectangular_conserves_momentum_witness :
  exists y2 M,
    sequent_depth_rectangular 1 10 4 = Returns y2 /\ 0 < y2 /\
    momentum (RectangularChannel 4) 10 1 = Returns M /\
    momentum (RectangularChannel 4) 10 y2 = Returns M.
Proof.
  apply sequent_depth_rectangular_conserves_momentum; lra.
Defined.

(** X11: the sequent depth is an involution: applied to the depth it
    returned, [sequent_depth_rectangular] gives back the depth it started
    from. *)
Theorem sequent_depth_rectangular_involution (b y1 Q : R) :
  0 < b -> 0 < y1 -> 0 < Q ->
  exists y2,
    sequent_depth_rectangular y1 Q b = Returns y2 /\
    sequent_depth_rectangular y2 Q b = Returns y1.
Proof.
  intros Hb Hy HQ.
  destruct (sequent_depth_rectangular_facts b y1 Q Hb Hy HQ)
    as (y2 & Fr1 & E & Hy2 & Hprod & _).
  exists y2. split; [exact E |].
  destruct (sequent_depth_rectangular_facts b y2 Q Hb Hy2 HQ)
    as (y3 & Fr2 & E' & Hy3 & Hprod' & _).
  rewrite E'. f_equal.
  assert (Hg : 0 < g) by (unfold g; lra).
  assert (Hk : 0 < g * b * b) by (repeat apply Rmult_lt_0_compat; lra).
  assert (Heq : y3 * (y3 + y2) * y2 * (g * b * b)
                = y2 * (y2 + y1) * y1 * (g * b * b)) by lra.
  apply Rmult_eq_reg_r in Heq; [| lra].
  assert (Hfac : (y3 - y1) * (y2 * (y3 + y1 + y2)) = 0) by nra.
  apply Rmult_integral in Hfac. destruct Hfac as [H | H]; [lra |].
  assert (0 < y2 * (y3 + y1 + y2)) by (apply Rmult_lt_0_compat; lra). lra.
Qed.

Lemma sequent_depth_rectangular_involution_witness :
  exists y2,
    sequent_depth_rectangular 1 10 4 = Returns y2 /\
    sequent_depth_rectangular y2 10 4 = Returns 1.
Proof.
  apply sequent_depth_rectangular_involution; lra.
Defined.

Lemma sign_transfer (a p c q : R) :
  0 < p -> 0 < q -> a * p = c * q ->
  (0 < a <-> 0 < c) /\ (a < 0 <-> c < 0).
Proof.
  intros Hp Hq E. repeat split; intros H.
  - destruct (Rlt_dec 0 c); [assumption | exfalso].
    assert (0 < a * p) by (apply Rmult_lt_0_compat; assumption). nra.
  - destruct (Rlt_dec 0 a); [assumption | exfalso].
    assert (0 < c * q) by (apply Rmult_lt_0_compat; assumption). nra.
  - destruct (Rlt_dec c 0); [assumption | exfalso].
    assert (0 < (- a) * p) by (apply Rmult_lt_0_compat; lra). nra.
  - destruct (Rlt_dec a 0); [assumption | exfalso].
    assert (0 < (- c) * q) by (apply Rmult_lt_0_compat; lra). nra.
Qed.

(** X12: for a positive width, depth and discharge the sequent depth lies
    above the given depth exactly when the upstream Froude number exceeds
    1, and [jump_classification_rectangular] answers
    "No jump (subcritical flow)" exactly when the sequent depth lies below
    the given depth. *)
Theorem jump_classification_matches_sequent_depth (b y1 Q : R) :
  0 < b -> 0 < y1 -> 0 < Q ->
  exists y2 Fr1 label,
    sequent_depth_rectangular y1 Q b = Returns y2 /\
    froude_number (RectangularChannel b) y1 Q = Returns (Fin Fr1) /\
    jump_classification_rectangular y1 Q b = Returns label /\
    (y1 < y2 <-> 1 < Fr1) /\
    (y2 < y1 <-> Fr1 < 1) /\
    (label = "No jump (subcritical flow)"%string <-> y2 < y1).
Proof.
  intros Hb Hy HQ.
  destruct (sequent_depth_rectangular_facts b y1 Q Hb Hy HQ)
    as (y2 & Fr1 & E & Hy2 & Hprod & EFr & HFr0 & HFr2).
  assert (Hg : 0 < g) by (unfold g; lra).
  assert (Hk : 0 < g * b * b) by (repeat apply Rmult_lt_0_compat; lra).
  assert (Hrel : y2 * (y2 + y1) = 2 * (Fr1 * Fr1) * (y1 * y1)).
  { apply (Rmult_eq_reg_r (y1 * (g * b * b)));
      [| apply Rgt_not_eq; apply Rmult_lt_0_compat; lra].
    transitivity (2 * (Q * Q)); [lra |]. rewrite <- HFr2. ring. }
  destruct (sign_transfer (y2 - y1) (y2 + 2 * y1) (Fr1 - 1)
              (2 * (y1 * y1) * (Fr1 + 1)))
    as (Hpos & Hneg);
    [lra | apply Rmult_lt_0_compat; [nra | lra] | lra |].
  assert (Hup : y1 < y2 <-> 1 < Fr1).
  { split; intros H; [assert (0 < Fr1 - 1) by (apply Hpos; lra)
                     | assert (0 < y2 - y1) by (apply Hpos; lra)]; lra. }
  assert (Hdown : y2 < y1 <-> Fr1 < 1).
  { split; intros H; [assert (Fr1 - 1 < 0) by (apply Hneg; lra)
                     | assert (y2 - y1 < 0) by (apply Hneg; lra)]; lra. }
  assert (Hsq : 0 < sqrt (g * y1)) by (apply sqrt_lt_R0; nra).
  exists y2, Fr1.
  eexists. split; [exact E |].
  split; [rewrite froude_number_rectangular_value by assumption;
          rewrite EFr; reflexivity |].
  split.
  { unfold jump_classification_rectangular.
    rewrite pydiv_nonzero by nra. simpl.
    rewrite pysqrt_nonneg by nra. simpl.
    rewrite pydiv_nonzero by lra. simpl.
    rewrite <- EFr. reflexivity. }
  split; [exact Hup |]. split; [exact Hdown |].
  unfold Rltb, Rleb.
  destruct (Rlt_dec Fr1 1) as [Hlt | Hge].
  - split; [intros _; apply Hdown; exact Hlt | reflexivity].
  - split; [| intros H; apply Hdown in H; contradiction].
    intros H. exfalso.
    repeat match type of H with
           | context [Rle_dec ?a ?c] => destruct (Rle_dec a c)
           | context [Rlt_dec ?a ?c] => destruct (Rlt_dec a c)
           end; simpl in H; discriminate H.
Qed.

Lemma jump_classification_matches_sequent_depth_witness :
  exists y2 Fr1 label,
    sequent_depth_rectangular 1 10 4 = Returns y2 /\
    froude_number (RectangularChannel 4) 1 10 = Returns (Fin Fr1) /\
    jump_classification_rectangular 1 10 4 = Returns label /\
    (1 < y2 <-> 1 < Fr1) /\
    (y2 < 1 <-> Fr1 < 1) /\
    (label = "No jump (subcritical flow)"%string <-> y2 < 1).
Proof.
  apply jump_classification_matches_sequent_depth; lra.
Defined.

(** X13: across the jump between a depth and its sequent depth in a
    rectangular channel [energy_loss_jump] returns
    [(y2 - y1)^3 / (4 * y1 * y2)]: the loss is positive exactly when the
    depth rises. *)
Theorem energy_loss_across_sequent_depths (b y1 Q : R) :
  0 < b -> 0 < y1 -> 0 < Q ->
  exists y2,
    sequent_depth_rectangular y1 Q b = Returns y2 /\ 0 < y2 /\
    energy_loss_jump (RectangularChannel b) y1 y2 Q
      = Returns ((y2 - y1) ^ 3 / (4 * y1 * y2)).
Proof.
  intros Hb Hy HQ.
  destruct (sequent_depth_rectangular_facts b y1 Q Hb Hy HQ)
    as (y2 & Fr1 & E & Hy2 & Hprod & _).
  exists y2. split; [exact E |]. split; [exact Hy2 |].
  assert (Hg : 0 < g) by (unfold g; lra).
  unfold energy_loss_jump. simpl.
  rewrite pydiv_nonzero by nra. simpl.
  rewrite pydiv_nonzero by nra. simpl.
  f_equal.
  assert (HQQ : Q * Q = y2 * (y2 + y1) * y1 * (g * b * b) / 2) by lra.
  replace (Q / (b * y1) * (Q / (b * y1) * 1))
    with (Q * Q / (b * b * y1 * y1)) by (field; lra).
  replace (Q / (b * y2) * (Q / (b * y2) * 1))
    with (Q * Q / (b * b * y2 * y2)) by (field; lra).
  rewrite HQQ. field. repeat split; lra.
Qed.

Lemma energy_loss_across_sequent_depths_witness :
  exists y2,
    sequent_depth_rectangular 1 10 4 = Returns y2 /\ 0 < y2 /\
    energy_loss_jump (RectangularChannel 4) 1 y2 10
      = Returns ((y2 - 1) ^ 3 / (4 * 1 * y2)).
Proof.
  apply energy_loss_across_sequent_depths; lra.
Defined.

(** ** Forces *)

Lemma hydraulic_depth_returns (c : ChannelSection) (y : R) :
  returns (hydraulic_depth c y).
Proof.
  unfold hydraulic_depth.
  destruct (area_returns c y) as [A ->].
  destruct (top_width_returns c y) as [T ->]. simpl.
  destruct (Req_dec_T T 0); [apply returns_Returns |].
  rewrite pydiv_nonzero by assumption. apply returns_Returns.
Qed.

(** In a rectangular or wide channel the hydraulic depth of a section of
    non-zero area is the depth itself. *)
Lemma hydraulic_depth_rectangular_like (c : ChannelSection) (y A : R) :
  match c with RectangularChannel _ | WideChannel => True | _ => False end ->
  area c y = Returns A -> A <> 0 ->
  hydraulic_depth c y = Returns y.
Proof.
  intros Hc EA HA. unfold hydraulic_depth. rewrite EA.
  destruct c; try contradiction; simpl in *; injection EA as <-.
  - destruct (Req_dec_T width 0); [subst; lra |].
    rewrite pydiv_nonzero by assumption. f_equal. field. assumption.
  - destruct (Req_dec_T 1 0); [lra |].
    rewrite pydiv_nonzero by assumption. f_equal. field.
Qed.

(** X14: as its docstring says, [force_on_obstacle] is
    [rho * g * (M1 - M2)] with the specific momentum [M] of
    [sequent_depth_general], for every section, whenever both depths are
    positive and both flow areas are not zero. *)
Theorem force_on_obstacle_is_momentum_difference
    (channel : ChannelSection) (y1 y2 Q A1 A2 : R) :
  0 < y1 -> 0 < y2 ->
  area channel y1 = Returns A1 -> A1 <> 0 ->
  area channel y2 = Returns A2 -> A2 <> 0 ->
  exists M1 M2,
    momentum channel Q y1 = Returns M1 /\
    momentum channel Q y2 = Returns M2 /\
    force_on_obstacle channel y1 y2 Q = Returns (rho * g * (M1 - M2)).
Proof.
  intros Hy1 Hy2 E1 HA1 E2 HA2.
  assert (Hg : g <> 0) by (unfold g; lra).
  destruct (hydraulic_depth_returns channel y1) as [D1 ED1].
  destruct (hydraulic_depth_returns channel y2) as [D2 ED2].
  assert (HM : forall y A D, 0 < y -> area channel y = Returns A -> A <> 0 ->
               hydraulic_depth channel y = Returns D ->
               momentum channel Q y = Returns (Q ^ 2 / (g * A) + A * (D / 2))).
  { intros y A D Hy EA HA ED. unfold momentum.
    destruct (Rle_dec y 0); [lra |]. rewrite EA. cbn [bind].
    destruct (Req_dec_T A 0); [contradiction |].
    rewrite ED. cbn [bind].
    rewrite pydiv_nonzero by (apply Rmult_integral_contrapositive; tauto).
    reflexivity. }
  exists (Q ^ 2 / (g * A1) + A1 * (D1 / 2)),
         (Q ^ 2 / (g * A2) + A2 * (D2 / 2)).
  split; [apply HM; assumption |]. split; [apply HM; assumption |].
  assert (HF : force_on_obstacle channel y1 y2 Q
               = Returns (rho * Q * (Q / A1 - Q / A2)
                          + rho * g * (A1 * D1 / 2 - A2 * D2 / 2))).
  { unfold force_on_obstacle. rewrite E1, E2. cbn [bind].
    rewrite !pydiv_nonzero by assumption. cbn [bind].
    destruct channel;
      try (rewrite ED1, ED2; reflexivity);
      match type of E1 with area ?c _ = _ =>
        rewrite (hydraulic_depth_rectangular_like c y1 A1 I E1 HA1) in ED1;
        rewrite (hydraulic_depth_rectangular_like c y2 A2 I E2 HA2) in ED2
      end;
      injection ED1 as <-; injection ED2 as <-; reflexivity. }
  rewrite HF. f_equal. unfold rho. field. repeat split; assumption.
Qed.

Lemma force_on_obstacle_is_momentum_difference_witness :
  exists M1 M2,
    momentum (TrapezoidalChannel 2 1) 10 1 = Returns M1 /\
    momentum (TrapezoidalChannel 2 1) 10 2 = Returns M2 /\
    force_on_obstacle (TrapezoidalChannel 2 1) 1 2 10
      = Returns (rho * g * (M1 - M2)).
Proof.
  apply (force_on_obstacle_is_momentum_difference
           (TrapezoidalChannel 2 1) 1 2 10 ((2 + 1 * 1) * 1) ((2 + 1 * 2) * 2));
    try reflexivity; lra.
Defined.

(** X15: between a depth and its sequent depth in a rectangular channel
    [force_on_obstacle] returns 0: a free jump needs no obstacle. *)
Theorem force_on_obstacle_zero_across_jump (b y1 Q : R) :
  0 < b -> 0 < y1 -> 0 < Q ->
  exists y2,
    sequent_depth_rectangular y1 Q b = Returns y2 /\
    force_on_obstacle (RectangularChannel b) y1 y2 Q = Returns 0.
Proof.
  intros Hb Hy HQ.
  destruct (sequent_depth_rectangular_facts b y1 Q Hb Hy HQ)
    as (y2 & Fr1 & E & Hy2 & Hprod & _).
  exists y2. split; [exact E |].
  assert (Hg : 0 < g) by (unfold g; lra).
  unfold force_on_obstacle. simpl.
  rewrite pydiv_nonzero by nra. simpl.
  rewrite pydiv_nonzero by nra. simpl.
  f_equal.
  assert (HQQ : Q * Q = y2 * (y2 + y1) * y1 * (g * b * b) / 2) by lra.
  replace (rho * Q * (Q / (b * y1) - Q / (b * y2)))
    with (rho * (Q * Q) * (1 / (b * y1) - 1 / (b * y2))) by (field; lra).
  rewrite HQQ. unfold rho. field. repeat split; lra.
Qed.

Lemma force_on_obstacle_zero_across_jump_witness :
  exists y2,
    sequent_depth_rectangular 1 10 4 = Returns y2 /\
    force_on_obstacle (RectangularChannel 4) 1 y2 10 = Returns 0.
Proof.
  apply force_on_obstacle_zero_across_jump; lra.
Defined.

(** X16: where both flow areas are positive [sluice_gate_force] and
    [force_on_obstacle] return the same force, for every section; where an
    area is zero [force_on_obstacle] fails with a division by zero while
    [sluice_gate_force] still returns a number. *)
Theorem sluice_gate_force_agrees_with_force_on_obstacle
    (channel : ChannelSection) (y1 y2 Q A1 A2 : R) :
  area channel y1 = Returns A1 ->
  area channel y2 = Returns A2 ->
  returns (sluice_gate_force channel y1 y2 Q) /\
  (0 < A1 -> 0 < A2 ->
   sluice_gate_force channel y1 y2 Q = force_on_obstacle channel y1 y2 Q) /\
  (A1 = 0 -> force_on_obstacle channel y1 y2 Q = Raises ZeroDivisionError).
Proof.
  intros E1 E2.
  destruct (hydraulic_depth_returns channel y1) as [D1 ED1].
  destruct (hydraulic_depth_returns channel y2) as [D2 ED2].
  split; [| split].
  - unfold sluice_gate_force. rewrite E1, E2. cbn [bind].
    destruct (Rlt_dec 0 A1);
      [rewrite pydiv_nonzero by lra |]; cbn [bind];
      (destruct (Rlt_dec 0 A2);
       [rewrite pydiv_nonzero by lra |]); cbn [bind];
      rewrite ED1, ED2; apply returns_Returns.
  - intros HA1 HA2.
    unfold sluice_gate_force, force_on_obstacle. rewrite E1, E2. cbn [bind].
    destruct (Rlt_dec 0 A1); [| contradiction].
    destruct (Rlt_dec 0 A2); [| contradiction].
    rewrite !pydiv_nonzero by lra. cbn [bind].
    rewrite ED1, ED2. cbn [bind].
    destruct channel; try reflexivity;
      match type of E1 with area ?c _ = _ =>
        rewrite (hydraulic_depth_rectangular_like c y1 A1 I E1) in ED1 by lra;
        rewrite (hydraulic_depth_rectangular_like c y2 A2 I E2) in ED2 by lra
      end;
      injection ED1 as <-; injection ED2 as <-; reflexivity.
  - intros ->. unfold force_on_obstacle. rewrite E1, E2. cbn [bind].
    rewrite pydiv_zero. reflexivity.
Qed.

Lemma sluice_gate_force_agrees_with_force_on_obstacle_witness :
  sluice_gate_force (RectangularChannel 4) 2 1 10
    = force_on_obstacle (RectangularChannel 4) 2 1 10.
Proof.
  apply (sluice_gate_force_agrees_with_force_on_obstacle
           (RectangularChannel 4) 2 1 10 (4 * 2) (4 * 1));
    try reflexivity; lra.
Defined.

(** ** Gradually varied flow *)

Lemma gvf_quotient_returns (channel : ChannelSection) (y V S0 Sf : R) :
  returns (gvf_quotient channel y V S0 Sf).
Proof.
  unfold gvf_quotient.
  destruct (hydraulic_depth_returns channel y) as [D ->]. cbn [bind].
  assert (Hg : 0 < g) by (unfold g; lra).
  destruct (Rle_dec D 0); cbn [bind]; [apply returns_Returns |].
  rewrite pysqrt_nonneg by nra. cbn [bind].
  assert (0 < sqrt (g * D)) by (apply sqrt_lt_R0; nra).
  rewrite pydiv_nonzero by lra. cbn [bind].
  match goal with
  | |- context [Rlt_dec ?a ?b] => destruct (Rlt_dec a b) as [Hlt | Hge]
  end; [apply returns_Returns |].
  rewrite pydiv_nonzero; [apply returns_Returns |].
  intros Hz. apply Hge. rewrite Hz, Rabs_R0. simpl. lra.
Qed.

(** Where the friction slope equals the bed slope the quotient of the
    derivative functions is zero. *)
Lemma gvf_quotient_uniform (channel : ChannelSection) (y V S0 : R) :
  gvf_quotient channel y V S0 S0 = Returns 0.
Proof.
  unfold gvf_quotient.
  destruct (hydraulic_depth_returns channel y) as [D ->]. cbn [bind].
  assert (Hg : 0 < g) by (unfold g; lra).
  destruct (Rle_dec D 0); cbn [bind]; [reflexivity |].
  rewrite pysqrt_nonneg by nra. cbn [bind].
  assert (0 < sqrt (g * D)) by (apply sqrt_lt_R0; nra).
  rewrite pydiv_nonzero by lra. cbn [bind].
  match goal with
  | |- context [Rlt_dec ?a ?b] => destruct (Rlt_dec a b) as [Hlt | Hge]
  end; [reflexivity |].
  rewrite pydiv_nonzero.
  - f_equal. unfold Rdiv. ring.
  - intros Hz. apply Hge. rewrite Hz, Rabs_R0. simpl. lra.
Qed.

Lemma gvf_derivative_chezy_rectangular_returns (w y Q S0 C : R) :
  0 < w -> C <> 0 ->
  returns (gvf_derivative_chezy (RectangularChannel w) y Q S0 C).
Proof.
  intros Hw HC. unfold gvf_derivative_chezy.
  destruct (Rle_dec y 0) as [Hy | Hy]; [apply returns_Returns |].
  assert (Hypos : 0 < y) by lra.
  destruct (hydraulic_radius_rectangular w y Hw Hypos) as [-> HR].
  simpl.
  destruct (Req_dec_T (w * y) 0); [apply returns_Returns |].
  destruct (Req_dec_T w 0); [apply returns_Returns |].
  rewrite pydiv_nonzero by assumption. cbn [bind].
  rewrite pydiv_nonzero.
  - cbn [bind]. apply gvf_quotient_returns.
  - apply Rmult_integral_contrapositive. split; [| lra].
    apply (pow_nonzero C 2). exact HC.
Qed.

Lemma solve_gvf_profile_returns (deriv : R -> outcome R)
    (y_start distance : R) (num_steps : nat) (direction : string) :
  (0 < num_steps)%nat -> (forall y, returns (deriv y)) ->
  returns (solve_gvf_profile deriv y_start distance num_steps direction).
Proof.
  intros Hn Hd. unfold solve_gvf_profile.
  rewrite pydiv_nonzero by (apply not_0_INR; lia). cbn [bind].
  apply gvf_march_returns. exact Hd.
Qed.

Lemma distance_search_returns (profile : R -> outcome (list R * list R))
    (direction : string) (y_target max_distance : R) :
  (forall d, returns (profile d)) ->
  forall iterations distance x_last evals,
    (iterations = O -> x_last <> None) ->
    returns (snd (distance_search profile direction y_target max_distance
                                  iterations distance x_last evals)).
Proof.
  intros Hp. induction iterations as [| k IH]; intros distance x_last evals Hx.
  - simpl. destruct x_last; [apply returns_Returns |].
    exfalso. now apply Hx.
  - simpl. destruct (Hp distance) as [[x y] ->].
    destruct (Rlt_dec (Rabs (last y 0 - y_target)) (1 / 100));
      [apply returns_Returns |].
    destruct (Rlt_dec max_distance
                (adjust_distance direction (last y 0) y_target distance));
      [apply returns_Returns |].
    apply IH. intros _. discriminate.
Qed.

(** X17: when the first trial distance [100 * |y_target - y_start|] does
    not exceed [max_distance], every distance [distance_to_depth_manning]
    returns lies between 0 and [max_distance]; on a rectangular channel of
    positive width with at least one step it does return one. *)
Theorem distance_to_depth_manning_within_max_distance
    (channel : ChannelSection) (Q S0 n y_start y_target : R)
    (num_steps : nat) (max_distance : R) :
  Rabs (y_target - y_start) * 100 <= max_distance ->
  (forall v,
     distance_to_depth_manning channel Q S0 n y_start y_target num_steps
                               max_distance = Returns v ->
     0 <= v <= max_distance) /\
  (forall w,
     channel = RectangularChannel w -> 0 < w -> (0 < num_steps)%nat ->
     returns (distance_to_depth_manning channel Q S0 n y_start y_target
                                        num_steps max_distance)).
Proof.
  intros Hest. split.
  - intros v. apply distance_within_max_distance. exact Hest.
  - intros w -> Hw Hn.
    unfold distance_to_depth_manning, distance_to_depth_manning_counted.
    destruct (Rlt_dec (Rabs (y_start - y_target)) (1 / 1000));
      [apply returns_Returns |].
    apply distance_search_returns; [| discriminate].
    intros d. apply solve_gvf_profile_returns; [exact Hn |].
    intros y. apply gvf_derivative_manning_rectangular_returns. exact Hw.
Qed.

Lemma distance_to_depth_manning_within_max_distance_witness :
  exists v,
    distance_to_depth_manning (RectangularChannel 5) 20 (1 / 1000) (2 / 100)
                              2 (22 / 10) 1 100 = Returns v /\
    0 <= v <= 100.
Proof.
  assert (Hest : Rabs (22 / 10 - 2) * 100 <= 100).
  { rewrite Rabs_pos_eq; lra. }
  destruct (distance_to_depth_manning_within_max_distance
              (RectangularChannel 5) 20 (1 / 1000) (2 / 100) 2 (22 / 10)
              1%nat 100 Hest) as [Hb Hr].
  destruct (Hr 5 eq_refl ltac:(lra) ltac:(lia)) as [v E].
  exists v. split; [exact E | apply Hb; exact E].
Defined.

(** X18: the same for [distance_to_depth_chezy]: a first trial distance
    within [max_distance] keeps the result within [0, max_distance], and
    on a rectangular channel of positive width with a non-zero Chezy
    coefficient and at least one step a distance is returned. *)
Theorem distance_to_depth_chezy_within_max_distance
    (channel : ChannelSection) (Q S0 C y_start y_target : R)
    (num_steps : nat) (max_distance : R) :
  Rabs (y_target - y_start) * 100 <= max_distance ->
  (forall v,
     distance_to_depth_chezy channel Q S0 C y_start y_target num_steps
                             max_distance = Returns v ->
     0 <= v <= max_distance) /\
  (forall w,
     channel = RectangularChannel w -> 0 < w -> C <> 0 ->
     (0 < num_steps)%nat ->
     returns (distance_to_depth_chezy channel Q S0 C y_start y_target
                                      num_steps max_distance)).
Proof.
  intros Hest.
  pose proof (Rabs_pos (y_target - y_start)) as Hpos.
  split.
  - intros v. unfold distance_to_depth_chezy.
    destruct (Rlt_dec (Rabs (y_start - y_target)) (1 / 1000)).
    + intros [= <-]. lra.
    + apply distance_search_bounded.
      * intros d xs ys. apply solve_gvf_profile_last_x.
      * lra.
      * intros xl H. discriminate.
  - intros w -> Hw HC Hn. unfold distance_to_depth_chezy.
    destruct (Rlt_dec (Rabs (y_start - y_target)) (1 / 1000));
      [apply returns_Returns |].
    apply distance_search_returns; [| discriminate].
    intros d. apply solve_gvf_profile_returns; [exact Hn |].
    intros y. apply gvf_derivative_chezy_rectangular_returns; assumption.
Qed.

Lemma distance_to_depth_chezy_within_max_distance_witness :
  exists v,
    distance_to_depth_chezy (RectangularChannel 5) 20 (1 / 1000) 50
                            2 (22 / 10) 1 100 = Returns v /\
    0 <= v <= 100.
Proof.
  assert (Hest : Rabs (22 / 10 - 2) * 100 <= 100).
  { rewrite Rabs_pos_eq; lra. }
  destruct (distance_to_depth_chezy_within_max_distance
              (RectangularChannel 5) 20 (1 / 1000) 50 2 (22 / 10)
              1%nat 100 Hest) as [Hb Hr].
  destruct (Hr 5 eq_refl ltac:(lra) ltac:(lra) ltac:(lia)) as [v E].
  exists v. split; [exact E | apply Hb; exact E].
Defined.

Lemma gvf_march_nth_x (deriv : R -> outcome R) (dx : R) (steps : nat) :
  forall xi yi xs ys,
    gvf_march deriv dx steps xi yi = Returns (xs, ys) ->
    forall i, (i <= steps)%nat -> nth i xs 0 = xi + INR i * dx.
Proof.
  induction steps as [| k IH]; intros xi yi xs ys H i Hi.
  - simpl in H. injection H as <- <-.
    assert (i = O) by lia. subst i. simpl. ring.
  - simpl in H.
    destruct (deriv yi) as [d |]; [| discriminate]. simpl in H.
    match type of H with
    | context [gvf_march deriv dx k ?a ?b] =>
        destruct (gvf_march deriv dx k a b) as [[xr yr] |] eqn:E;
          [| discriminate]
    end.
    simpl in H. injection H as <- <-.
    destruct i as [| j].
    + simpl. ring.
    + change (nth (S j) (xi :: xr) 0) with (nth j xr 0).
      rewrite (IH _ _ _ _ E j) by lia. rewrite S_INR. ring.
Qed.

(** X19: the stations of a computed profile are equally spaced: for
    [solve_gvf_profile_manning] and [solve_gvf_profile_chezy] alike the
    [x] array has [num_steps + 1] entries, entry [i] is [i * dx] with
    [dx = distance / num_steps], negated for direction "upstream" (every
    other direction string counts as downstream), and the last entry lies
    [|distance|] away from the start. *)
Theorem gvf_profile_stations (channel : ChannelSection)
    (Q S0 roughness y_start distance : R) (num_steps : nat)
    (direction : string) (xs ys : list R) :
  solve_gvf_profile_manning channel Q S0 roughness y_start distance
                            num_steps direction = Returns (xs, ys) \/
  solve_gvf_profile_chezy channel Q S0 roughness y_start distance
                          num_steps direction = Returns (xs, ys) ->
  let dx := if String.eqb direction "upstream"
            then - (distance / INR num_steps)
            else distance / INR num_steps in
  (0 < num_steps)%nat /\
  List.length xs = S num_steps /\
  (forall i, (i <= num_steps)%nat -> nth i xs 0 = INR i * dx) /\
  Rabs (last xs 0) = Rabs distance.
Proof.
  assert (Hgen : forall deriv,
            solve_gvf_profile deriv y_start distance num_steps direction
              = Returns (xs, ys) ->
            (0 < num_steps)%nat /\
            List.length xs = S num_steps /\
            (forall i, (i <= num_steps)%nat ->
               nth i xs 0
               = INR i * (if String.eqb direction "upstream"
                          then - (distance / INR num_steps)
                          else distance / INR num_steps)) /\
            Rabs (last xs 0) = Rabs distance).
  { intros deriv H.
    pose proof (solve_gvf_profile_shape _ _ _ _ _ _ _ H)
      as (xr & yr & -> & _ & Lx & _).
    pose proof (solve_gvf_profile_last_x _ _ _ _ _ _ _ H) as Hlast.
    unfold solve_gvf_profile in H.
    assert (Hn : (0 < num_steps)%nat).
    { destruct num_steps; [| lia]. simpl in H.
      rewrite pydiv_zero in H. discriminate. }
    rewrite pydiv_nonzero in H by (apply not_0_INR; lia). cbn [bind] in H.
    repeat split; try assumption.
    - simpl. now rewrite Lx.
    - intros i Hi. rewrite (gvf_march_nth_x _ _ _ _ _ _ _ H i Hi). ring. }
  intros [H | H]; cbv zeta; eapply Hgen; exact H.
Qed.

Lemma gvf_profile_stations_witness :
  exists xs ys,
    solve_gvf_profile_manning (RectangularChannel 5) 20 (1 / 1000) (2 / 100)
                              2 200 10 "upstream" = Returns (xs, ys) /\
    List.length xs = 11%nat /\
    (forall i, (i <= 10)%nat -> nth i xs 0 = INR i * - (200 / INR 10)) /\
    Rabs (last xs 0) = Rabs 200.
Proof.
  destruct (solve_gvf_profile_returns
              (fun y => gvf_derivative_manning (RectangularChannel 5) y 20
                                               (1 / 1000) (2 / 100))
              2 200 10 "upstream" ltac:(lia)
              (fun y => gvf_derivative_manning_rectangular_returns
                          5 y 20 (1 / 1000) (2 / 100) ltac:(lra)))
    as [[xs ys] H].
  exists xs, ys. split; [exact H |].
  destruct (gvf_profile_stations (RectangularChannel 5) 20 (1 / 1000)
              (2 / 100) 2 200 10 "upstream" xs ys (or_introl H))
    as (_ & L & Hn & Hl).
  repeat split; assumption.
Defined.

Lemma pypow_half_squared (S s : R) :
  pypow S (1 / 2) = Returns s -> s * s = S.
Proof.
  unfold pypow. destruct (Rlt_dec 0 S) as [HS | HS].
  - intros [= <-]. pose proof (Rpower_half_squared S HS) as H.
    simpl in H. lra.
  - destruct (Req_dec_T S 0); [| discriminate].
    intros [= <-]. lra.
Qed.

(** At a depth where Manning's formula carries the discharge on the bed
    slope the friction slope equals the bed slope and the derivative of
    the depth is zero. *)
Lemma gvf_derivative_manning_uniform (channel : ChannelSection)
    (y Q S0 n R_ : R) :
  hydraulic_radius channel y = Returns R_ -> 0 < R_ ->
  manning_discharge channel y S0 n = Returns Q ->
  gvf_derivative_manning channel y Q S0 n = Returns 0.
Proof.
  intros ER HR. unfold manning_discharge, manning_velocity, gvf_derivative_manning.
  destruct (area_returns channel y) as [A ->].
  destruct (top_width_returns channel y) as [T ->].
  rewrite ER. cbn [bind].
  unfold pydiv at 1. destruct (Req_dec_T n 0) as [| Hn]; [discriminate |].
  cbn [bind]. rewrite pypow_pos by assumption. cbn [bind].
  destruct (pypow S0 (1 / 2)) as [s |] eqn:ES; [| discriminate].
  cbn [bind]. intros [= <-].
  destruct (Rle_dec y 0); [reflexivity |].
  destruct (Req_dec_T A 0) as [| HA]; [reflexivity |].
  destruct (Req_dec_T T 0); [reflexivity |].
  rewrite pydiv_nonzero by assumption. cbn [bind].
  pose proof (Rpower_pos R_ (2 / 3)) as Hp.
  rewrite pydiv_nonzero by lra. cbn [bind].
  replace ((n * (A * (1 / n * Rpower R_ (2 / 3) * s) / A)
            / Rpower R_ (2 / 3)) ^ 2) with S0.
  - apply gvf_quotient_uniform.
  - rewrite <- (pypow_half_squared S0 s ES). field.
    repeat split; try assumption. lra.
Qed.

Lemma gvf_march_constant (deriv : R -> outcome R) (dx y0 : R) :
  deriv y0 = Returns 0 -> 1 / 1000 <= y0 ->
  forall steps xi,
    exists xs,
      gvf_march deriv dx steps xi y0 = Returns (xs, repeat y0 (S steps)).
Proof.
  intros Hd Hy. induction steps as [| k IH]; intros xi.
  - exists [xi]. reflexivity.
  - simpl. rewrite Hd. cbn [bind].
    replace (y0 + 0 * dx) with y0 by ring.
    destruct (Rlt_dec y0 (1 / 1000)); [lra |].
    destruct (IH (xi + dx)) as [xs E]. simpl in E. rewrite E.
    exists (xi :: xs). reflexivity.
Qed.

(** X20: uniform flow is a fixed point of the profile computation: at a
    depth [y_n] (of at least 0.001 m, with positive hydraulic radius)
    where Manning's discharge on the bed slope is Q,
    [gvf_derivative_manning] is 0 and [solve_gvf_profile_manning] started
    there returns the constant profile [y_n], in either direction and
    over any distance. *)
Theorem uniform_flow_profile_is_constant (channel : ChannelSection)
    (y_n Q S0 n R_ distance : R) (num_steps : nat) (direction : string) :
  hydraulic_radius channel y_n = Returns R_ -> 0 < R_ ->
  manning_discharge channel y_n S0 n = Returns Q ->
  1 / 1000 <= y_n -> (0 < num_steps)%nat ->
  gvf_derivative_manning channel y_n Q S0 n = Returns 0 /\
  exists xs,
    solve_gvf_profile_manning channel Q S0 n y_n distance num_steps direction
      = Returns (xs, repeat y_n (S num_steps)).
Proof.
  intros ER HR EQ Hy Hn.
  pose proof (gvf_derivative_manning_uniform channel y_n Q S0 n R_ ER HR EQ)
    as Hd.
  split; [exact Hd |].
  unfold solve_gvf_profile_manning, solve_gvf_profile.
  rewrite pydiv_nonzero by (apply not_0_INR; lia). cbn [bind].
  apply (gvf_march_constant
           (fun y => gvf_derivative_manning channel y Q S0 n)); assumption.
Qed.

Lemma uniform_flow_profile_is_constant_witness :
  let Q := 5 * 1 * (1 / (2 / 100) * Rpower (5 * 1 / (5 + 2 * 1)) (2 / 3)
                    * slope_factor (1 / 1000)) in
  gvf_derivative_manning (RectangularChannel 5) 1 Q (1 / 1000) (2 / 100)
    = Returns 0 /\
  exists xs,
    solve_gvf_profile_manning (RectangularChannel 5) Q (1 / 1000) (2 / 100)
                              1 500 10 "downstream"
      = Returns (xs, repeat 1 11).
Proof.
  cbv zeta.
  destruct (hydraulic_radius_rectangular 5 1 ltac:(lra) ltac:(lra))
    as [ER HR].
  apply (uniform_flow_profile_is_constant (RectangularChannel 5) 1 _
           (1 / 1000) (2 / 100) _ 500 10 "downstream" ER HR);
    [apply manning_discharge_rectangular_value; lra | lra | lia].
Defined.

(** ** Classification of profiles *)

(** X21: every curve type [classify_gvf_curve] returns is a key of the
    table of [gvf_curve_properties] (the default "Unknown curve type" is
    never reached from it), and when the normal depth is not below the
    critical depth on a mild slope the regime listed for the curve is
    "Subcritical" exactly when the depth exceeds the critical depth. *)
Theorem gvf_curve_regime_matches_depth (S0 S_c y y_n y_c : R) :
  dict_mem gvf_curve_table (classify_gvf_curve S0 S_c y y_n y_c) = true /\
  ((S0 < S_c -> y_c <= y_n) ->
   dict_get (gvf_curve_properties (classify_gvf_curve S0 S_c y y_n y_c))
            "regime"
   = Some (if Rlt_dec y_c y then "Subcritical" else "Supercritical")%string).
Proof.
  unfold classify_gvf_curve.
  destruct (Rlt_dec (Rabs S0) (1 / 10 ^ 10)) as [HH | HH];
    [| destruct (Rlt_dec S0 0) as [HA | HA];
       [| destruct (Rlt_dec (Rabs (S0 - S_c)) (S_c * (1 / 100))) as [HC | HC];
          [| destruct (Rlt_dec S0 S_c) as [HM | HM]]]];
    cbn [String.eqb Ascii.eqb Bool.eqb];
    destruct (Rlt_dec y_c y) as [Hc | Hc];
    try (destruct (Rlt_dec y_n y) as [Hn | Hn]);
    (split; [reflexivity | intros Hmild; try reflexivity]).
  exfalso. specialize (Hmild HM). lra.
Qed.

Lemma gvf_curve_regime_matches_depth_witness :
  dict_mem gvf_curve_table
           (classify_gvf_curve (1 / 1000) (5 / 1000) 2 (3 / 2) 1) = true /\
  dict_get (gvf_curve_properties
              (classify_gvf_curve (1 / 1000) (5 / 1000) 2 (3 / 2) 1))
           "regime"
  = Some (if Rlt_dec 1 2 then "Subcritical" else "Supercritical")%string.
Proof.
  destruct (gvf_curve_regime_matches_depth (1 / 1000) (5 / 1000) 2 (3 / 2) 1)
    as [Hk Hr].
  split; [exact Hk | apply Hr; intros _; lra].
Defined.

(** ** Sluice gate *)

(** X22: for an upstream depth above the downstream depth, a loss
    coefficient above -1 and a non-zero downstream area, the discharge
    [sluice_gate_discharge] returns satisfies the energy equation it was
    derived from, [y_up = y_down + (1 + k) * V2^2 / (2 g)] with
    [V2 = Q / A_down]; without loss the downstream [specific_energy] at
    that discharge is the upstream depth. *)
Theorem sluice_gate_discharge_energy_balance (channel : ChannelSection)
    (y_up y_down k A_down : R) :
  y_down < y_up -> -1 < k ->
  area channel y_down = Returns A_down -> A_down <> 0 ->
  exists Q,
    sluice_gate_discharge channel y_up y_down k = Returns Q /\
    y_down + (1 + k) * ((Q / A_down) ^ 2 / (2 * g)) = y_up /\
    (k = 0 -> specific_energy channel y_down Q = Returns (Fin y_up)).
Proof.
  intros Hy Hk EA HA.
  assert (Hg : 0 < g) by (unfold g; lra).
  set (q := 2 * g * (y_up - y_down) / (1 + k)).
  assert (Hq : 0 < q).
  { unfold q. apply Rdiv_lt_0_compat; [| lra].
    apply Rmult_lt_0_compat; lra. }
  assert (EQ : sluice_gate_discharge channel y_up y_down k
               = Returns (A_down * sqrt q)).
  { unfold sluice_gate_discharge.
    destruct (area_returns channel y_up) as [A_up ->]. rewrite EA.
    cbn [bind].
    destruct (Rle_dec y_up y_down); [lra |].
    rewrite pydiv_nonzero by lra. cbn [bind]. fold q.
    rewrite pysqrt_nonneg by lra. reflexivity. }
  assert (HV : A_down * sqrt q / A_down = sqrt q) by (field; assumption).
  assert (Hsq : sqrt q * sqrt q = q) by (apply sqrt_sqrt; lra).
  assert (Hbal : y_down + (1 + k) * ((A_down * sqrt q / A_down) ^ 2 / (2 * g))
                 = y_up).
  { rewrite HV. simpl. rewrite Rmult_1_r, Hsq. unfold q. field.
    split; lra. }
  exists (A_down * sqrt q). split; [exact EQ |]. split; [exact Hbal |].
  intros ->. unfold specific_energy. rewrite EA. cbn [bind].
  destruct (Req_dec_T A_down 0); [contradiction |].
  rewrite pydiv_nonzero by assumption. cbn [bind].
  do 2 f_equal. lra.
Qed.

Lemma sluice_gate_discharge_energy_balance_witness :
  exists Q,
    sluice_gate_discharge (RectangularChannel 4) 3 1 0 = Returns Q /\
    1 + (1 + 0) * ((Q / (4 * 1)) ^ 2 / (2 * g)) = 3 /\
    specific_energy (RectangularChannel 4) 1 Q = Returns (Fin 3).
Proof.
  destruct (sluice_gate_discharge_energy_balance (RectangularChannel 4)
              3 1 0 (4 * 1) ltac:(lra) ltac:(lra) eq_refl ltac:(lra))
    as (Q & E & Hb & Hs).
  exists Q. split; [exact E |]. split; [exact Hb | apply Hs; reflexivity].
Defined.

(** X23: the edge behaviour of [sluice_gate_discharge], for every
    section: a gate with the upstream depth not above the downstream
    depth passes no discharge, whatever the loss coefficient; above it, a
    loss coefficient of -1 fails with a division by zero, one below -1
    with the [ValueError] of the square root, and every other coefficient
    gives a number. *)
Theorem sluice_gate_discharge_edges (channel : ChannelSection)
    (y_up y_down k : R) :
  (y_up <= y_down ->
   sluice_gate_discharge channel y_up y_down k = Returns 0) /\
  (y_down < y_up -> k = -1 ->
   sluice_gate_discharge channel y_up y_down k = Raises ZeroDivisionError) /\
  (y_down < y_up -> k < -1 ->
   sluice_gate_discharge channel y_up y_down k = Raises ValueError) /\
  (y_down < y_up -> -1 < k ->
   returns (sluice_gate_discharge channel y_up y_down k)).
Proof.
  assert (Hg : 0 < g) by (unfold g; lra).
  unfold sluice_gate_discharge.
  destruct (area_returns channel y_up) as [A_up ->].
  destruct (area_returns channel y_down) as [A_down ->]. cbn [bind].
  destruct (Rle_dec y_up y_down) as [Hle | Hgt].
  - split; [reflexivity |]. repeat split; intros; lra.
  - split; [intros; lra |]. split; [| split].
    + intros _ ->. replace (1 + -1) with 0 by ring.
      rewrite pydiv_zero. reflexivity.
    + intros Hy Hk. rewrite pydiv_nonzero by lra. cbn [bind].
      unfold pysqrt.
      destruct (Rlt_dec (2 * g * (y_up - y_down) / (1 + k)) 0) as [| Hn];
        [reflexivity |].
      exfalso. apply Hn.
      assert (Hnum : 0 < 2 * g * (y_up - y_down))
        by (apply Rmult_lt_0_compat; lra).
      assert (Hinv : / (1 + k) < 0) by (apply Rinv_lt_0_compat; lra).
      unfold Rdiv. nra.
    + intros Hy Hk. rewrite pydiv_nonzero by lra. cbn [bind].
      rewrite pysqrt_nonneg; [apply returns_Returns |].
      left. apply Rdiv_lt_0_compat; [| lra].
      apply Rmult_lt_0_compat; lra.
Qed.

Lemma sluice_gate_discharge_edges_witness :
  sluice_gate_discharge (RectangularChannel 4) 1 2 (-1) = Returns 0 /\
  sluice_gate_discharge (RectangularChannel 4) 2 1 (-1)
    = Raises ZeroDivisionError /\
  sluice_gate_discharge (RectangularChannel 4) 2 1 (-2) = Raises ValueError /\
  returns (sluice_gate_discharge (RectangularChannel 4) 2 1 0).
Proof.
  split; [| split; [| split]].
  - apply (sluice_gate_discharge_edges (RectangularChannel 4) 1 2 (-1)). lra.
  - apply (sluice_gate_discharge_edges (RectangularChannel 4) 2 1 (-1));
      [lra | reflexivity].
  - apply (sluice_gate_discharge_edges (RectangularChannel 4) 2 1 (-2)); lra.
  - apply (sluice_gate_discharge_edges (RectangularChannel 4) 2 1 0); lra.
Defined.

(** ** The facade and its factory *)

Lemma energy_loss_jump_rectangular_value (b y1 y2 Q : R) :
  0 < b -> 0 < y1 -> 0 < y2 ->
  y2 * (y2 + y1) * y1 * (g * b * b) = 2 * (Q * Q) ->
  energy_loss_jump (RectangularChannel b) y1 y2 Q
    = Returns ((y2 - y1) ^ 3 / (4 * y1 * y2)).
Proof.
  intros Hb Hy Hy2 Hprod.
  assert (Hg : 0 < g) by (unfold g; lra).
  unfold energy_loss_jump. simpl.
  rewrite pydiv_nonzero by nra. simpl.
  rewrite pydiv_nonzero by nra. simpl.
  f_equal.
  assert (HQQ : Q * Q = y2 * (y2 + y1) * y1 * (g * b * b) / 2) by lra.
  replace (Q / (b * y1) * (Q / (b * y1) * 1))
    with (Q * Q / (b * b * y1 * y1)) by (field; lra).
  replace (Q / (b * y2) * (Q / (b * y2) * 1))
    with (Q * Q / (b * b * y2 * y2)) by (field; lra).
  rewrite HQQ. field. repeat split; lra.
Qed.

(** What the jump facade returns for a rectangular channel. *)
Lemma jump_facade_rectangular_value (sv : Solvers)
    (params : list (string * pyval)) (w y1 Q : R) (y2 : option R) :
  0 < w -> 0 < y1 -> 0 < Q ->
  dict_get params "width" = Some (PNum w) ->
  exists y2c,
    sequent_depth_rectangular y1 Q w = Returns y2c /\ 0 < y2c /\
    solve_hydraulic_jump_problem sv "rectangular" params Q (Some y1) y2
                                 true true
    = Returns
        [("discharge", Fin Q); ("depth_1", Fin y1);
         ("froude_1", Fin (Q / (w * y1) / sqrt (g * y1)));
         ("sequent_depth", Fin y2c);
         ("energy_loss", Fin ((y2c - y1) ^ 3 / (4 * y1 * y2c)));
         ("energy_loss_fraction",
          Fin ((y2c - y1) ^ 3 / (4 * y1 * y2c)
               / (y1 + (Q / (w * y1)) ^ 2 / (2 * g))))]%string.
Proof.
  intros Hw Hy HQ Hget.
  destruct (sequent_depth_rectangular_facts w y1 Q Hw Hy HQ)
    as (y2c & Fr1 & E & Hy2 & Hprod & _).
  exists y2c. split; [exact E |]. split; [exact Hy2 |].
  assert (Hg : 0 < g) by (unfold g; lra).
  assert (EC : _create_channel "rectangular" params
               = Returns (RectangularChannel w)).
  { unfold _create_channel, param_num. cbn [String.eqb Ascii.eqb Bool.eqb].
    rewrite Hget. reflexivity. }
  assert (EL : energy_loss_jump (RectangularChannel w) y1 y2c Q
               = Returns ((y2c - y1) ^ 3 / (4 * y1 * y2c)))
    by (apply energy_loss_jump_rectangular_value; assumption).
  assert (EF : energy_loss_fraction (RectangularChannel w) y1 y2c Q
               = Returns ((y2c - y1) ^ 3 / (4 * y1 * y2c)
                          / (y1 + (Q / (w * y1)) ^ 2 / (2 * g)))).
  { unfold energy_loss_fraction. rewrite EL.
    change (area (RectangularChannel w) y1) with (Returns (w * y1)).
    cbn [bind]. rewrite pydiv_nonzero by nra. cbn [bind].
    apply pydiv_nonzero.
    assert (0 <= (Q / (w * y1)) ^ 2 / (2 * g)).
    { apply Rmult_le_pos; [apply pow2_ge_0 |].
      left. apply Rinv_0_lt_compat. lra. }
    lra. }
  unfold solve_hydraulic_jump_problem. rewrite EC. cbn [bind].
  rewrite froude_number_rectangular_value by assumption. cbn [bind].
  change (sequent_depth sv (RectangularChannel w) y1 Q None)
    with (sequent_depth_rectangular y1 Q w).
  rewrite E. cbn [bind]. rewrite EL. cbn [bind]. rewrite EF. cbn [bind].
  destruct y2; reflexivity.
Qed.

(** X24: when the jump facade computes a sequent depth, a downstream
    depth passed in as [y2] is ignored: the mapping it returns holds
    "sequent_depth" but neither "depth_2" nor "froude_2", and it is the
    mapping of the same call without [y2]. *)
Theorem jump_facade_ignores_downstream_depth (sv : Solvers)
    (channel_type : string) (channel_params : list (string * pyval))
    (Q y1 : R) (y2 : option R) (find_energy_loss : bool)
    (results : list (string * xfloat)) :
  solve_hydraulic_jump_problem sv channel_type channel_params Q
    (Some y1) y2 true find_energy_loss = Returns results ->
  dict_mem results "sequent_depth" = true /\
  dict_mem results "depth_2" = false /\
  dict_mem results "froude_2" = false /\
  solve_hydraulic_jump_problem sv channel_type channel_params Q
    (Some y1) None true find_energy_loss = Returns results.
Proof.
  unfold solve_hydraulic_jump_problem.
  destruct (_create_channel channel_type channel_params) as [channel |];
    [| discriminate]. cbn [bind].
  destruct (froude_number channel y1 Q) as [Fr1 |]; [| discriminate].
  cbn [bind].
  destruct (sequent_depth sv channel y1 Q None) as [y2c |]; [| discriminate].
  cbn [bind].
  destruct find_energy_loss.
  - destruct (energy_loss_jump channel y1 y2c Q) as [dE |]; [| discriminate].
    cbn [bind].
    destruct (energy_loss_fraction channel y1 y2c Q) as [frac |];
      [| discriminate].
    cbn [bind].
    destruct y2; intros [= <-]; repeat split; reflexivity.
  - destruct y2; intros [= <-]; repeat split; reflexivity.
Qed.

Lemma jump_facade_ignores_downstream_depth_witness :
  exists results,
    solve_hydraulic_jump_problem minimal_solvers "rectangular"
      [("width"%string, PNum 4)] 10 (Some 1) (Some 3) true true
      = Returns results /\
    dict_mem results "sequent_depth" = true /\
    dict_mem results "depth_2" = false /\
    dict_mem results "froude_2" = false.
Proof.
  destruct (jump_facade_rectangular_value minimal_solvers
              [("width"%string, PNum 4)] 4 1 10 (Some 3)
              ltac:(lra) ltac:(lra) ltac:(lra) eq_refl)
    as (y2c & _ & _ & E).
  eexists. split; [exact E |].
  destruct (jump_facade_ignores_downstream_depth _ _ _ _ _ _ _ _ E)
    as (H1 & H2 & H3 & _).
  repeat split; assumption.
Defined.

(** X25: for a rectangular channel with positive width, upstream depth
    and discharge the jump facade returns all six entries, whatever the
    solvers and the other parameters are: the discharge, the upstream
    depth, its Froude number, the closed-form sequent depth [y2], the
    energy loss [(y2 - y1)^3 / (4 y1 y2)] and that loss divided by the
    upstream specific energy. *)
Theorem jump_facade_rectangular_complete (sv : Solvers)
    (params : list (string * pyval)) (w y1 Q : R) (y2 : option R) :
  0 < w -> 0 < y1 -> 0 < Q ->
  dict_get params "width" = Some (PNum w) ->
  exists y2c E1,
    sequent_depth_rectangular y1 Q w = Returns y2c /\ 0 < y2c /\
    specific_energy (RectangularChannel w) y1 Q = Returns (Fin E1) /\
    solve_hydraulic_jump_problem sv "rectangular" params Q (Some y1) y2
                                 true true
    = Returns
        [("discharge", Fin Q); ("depth_1", Fin y1);
         ("froude_1", Fin (Q / (w * y1) / sqrt (g * y1)));
         ("sequent_depth", Fin y2c);
         ("energy_loss", Fin ((y2c - y1) ^ 3 / (4 * y1 * y2c)));
         ("energy_loss_fraction",
          Fin ((y2c - y1) ^ 3 / (4 * y1 * y2c) / E1))]%string.
Proof.
  intros Hw Hy HQ Hget.
  destruct (jump_facade_rectangular_value sv params w y1 Q y2
              Hw Hy HQ Hget) as (y2c & E & Hy2 & H).
  exists y2c, (y1 + (Q / (w * y1)) ^ 2 / (2 * g)).
  split; [exact E |]. split; [exact Hy2 |]. split; [| exact H].
  unfold specific_energy.
  change (area (RectangularChannel w) y1) with (Returns (w * y1)).
  cbn [bind].
  destruct (Req_dec_T (w * y1) 0); [nra |].
  rewrite pydiv_nonzero by assumption. reflexivity.
Qed.

Lemma jump_facade_rectangular_complete_witness :
  exists y2c E1,
    sequent_depth_rectangular 1 10 4 = Returns y2c /\ 0 < y2c /\
    specific_energy (RectangularChannel 4) 1 10 = Returns (Fin E1) /\
    solve_hydraulic_jump_problem minimal_solvers "rectangular"
      [("width"%string, PNum 4)] 10 (Some 1) None true true
    = Returns
        [("discharge", Fin 10); ("depth_1", Fin 1);
         ("froude_1", Fin (10 / (4 * 1) / sqrt (g * 1)));
         ("sequent_depth", Fin y2c);
         ("energy_loss", Fin ((y2c - 1) ^ 3 / (4 * 1 * y2c)));
         ("energy_loss_fraction",
          Fin ((y2c - 1) ^ 3 / (4 * 1 * y2c) / E1))]%string.
Proof.
  apply jump_facade_rectangular_complete; [lra | lra | lra | reflexivity].
Defined.

(** X26: the factory of compound sections and the factory of the facade
    build the same section for every type name other than "wide" and
    "compound", and raise the same error; those two names are known to
    the facade only, so that a compound section never contains a wide or
    a compound one: [_create_section] raises [ValueError] for both,
    whatever the parameters. *)
Theorem section_factories_agree (section_type : string)
    (params : list (string * pyval)) :
  (section_type <> "wide"%string -> section_type <> "compound"%string ->
   _create_section section_type params
   = _create_channel section_type params) /\
  _create_section "wide" params = Raises ValueError /\
  _create_section "compound" params = Raises ValueError /\
  _create_channel "wide" params = Returns WideChannel.
Proof.
  split; [| repeat split].
  intros Hw Hc. unfold _create_section, _create_channel.
  destruct (String.eqb_spec section_type "rectangular"); [reflexivity |].
  destruct (String.eqb_spec section_type "trapezoidal"); [reflexivity |].
  destruct (String.eqb_spec section_type "triangular") as [-> | Ht].
  - reflexivity.
  - destruct (String.eqb_spec section_type "circular"); [reflexivity |].
    destruct (String.eqb_spec section_type "wide"); [contradiction |].
    destruct (String.eqb_spec section_type "compound"); [contradiction |].
    reflexivity.
Qed.

Lemma section_factories_agree_witness :
  _create_section "circular" [("diameter"%string, PNum 2)]
  = _create_channel "circular" [("diameter"%string, PNum 2)].
Proof.
  apply (section_factories_agree "circular" [("diameter"%string, PNum 2)]);
    discriminate.
Defined.

(** ** Flow regime and the direction of a jump *)

Lemma sequent_depth_rectangular_order (b y1 Q : R) :
  0 < b -> 0 < y1 -> 0 < Q ->
  exists y2,
    sequent_depth_rectangular y1 Q b = Returns y2 /\ 0 < y2 /\
    y2 * (y2 + y1) * y1 * (g * b * b) = 2 * (Q * Q) /\
    (1 < Q / (b * y1) / sqrt (g * y1) -> y1 < y2) /\
    (Q / (b * y1) / sqrt (g * y1) < 1 -> y2 < y1).
Proof.
  intros Hb Hy HQ.
  destruct (sequent_depth_rectangular_facts b y1 Q Hb Hy HQ)
    as (y2 & Fr1 & E & Hy2 & Hprod & EFr & HFr0 & HFr2).
  rewrite <- EFr.
  assert (Hg : 0 < g) by (unfold g; lra).
  assert (Hk : 0 < g * b * b) by (repeat apply Rmult_lt_0_compat; lra).
  assert (Hrel : y2 * (y2 + y1) = 2 * (Fr1 * Fr1) * (y1 * y1)).
  { apply (Rmult_eq_reg_r (y1 * (g * b * b)));
      [| apply Rgt_not_eq; apply Rmult_lt_0_compat; lra].
    transitivity (2 * (Q * Q)); [lra |]. rewrite <- HFr2. ring. }
  destruct (sign_transfer (y2 - y1) (y2 + 2 * y1) (Fr1 - 1)
              (2 * (y1 * y1) * (Fr1 + 1)))
    as (Hpos & Hneg);
    [lra | apply Rmult_lt_0_compat; [nra | lra] | lra |].
  exists y2. repeat split; try assumption.
  - intros H. assert (0 < y2 - y1) by (apply Hpos; lra). lra.
  - intros H. assert (y2 - y1 < 0) by (apply Hneg; lra). lra.
Qed.

(** X27: in a rectangular channel the regime reported for the upstream
    depth decides the direction of the jump computed from it: for
    "supercritical" the sequent depth lies above the depth and
    [energy_loss_jump] across the two is positive; for "subcritical" the
    sequent depth lies below it and the computed energy loss is negative,
    so no jump can start from that depth. *)
Theorem flow_regime_decides_jump_direction (b y1 Q : R) :
  0 < b -> 0 < y1 -> 0 < Q ->
  exists Fr y2 dE,
    froude_number (RectangularChannel b) y1 Q = Returns Fr /\
    sequent_depth_rectangular y1 Q b = Returns y2 /\
    energy_loss_jump (RectangularChannel b) y1 y2 Q = Returns dE /\
    (flow_regime Fr = "supercritical"%string -> y1 < y2 /\ 0 < dE) /\
    (flow_regime Fr = "subcritical"%string -> y2 < y1 /\ dE < 0).
Proof.
  intros Hb Hy HQ.
  destruct (sequent_depth_rectangular_order b y1 Q Hb Hy HQ)
    as (y2 & E & Hy2 & Hprod & Hup & Hdown).
  exists (Fin (Q / (b * y1) / sqrt (g * y1))), y2,
         ((y2 - y1) ^ 3 / (4 * y1 * y2)).
  split; [apply froude_number_rectangular_value; assumption |].
  split; [exact E |].
  split; [apply energy_loss_jump_rectangular_value; assumption |].
  set (Fr1 := Q / (b * y1) / sqrt (g * y1)) in *.
  assert (Hden : 0 < / (4 * y1 * y2)).
  { apply Rinv_0_lt_compat. repeat apply Rmult_lt_0_compat; lra. }
  unfold flow_regime.
  destruct (Rlt_dec Fr1 (99 / 100)) as [Hsub | Hnsub];
    [| destruct (Rlt_dec (101 / 100) Fr1) as [Hsup | Hnsup]];
    (split; [intros Hs | intros Hs]); try discriminate Hs.
  - assert (Hlt : y2 < y1) by (apply Hdown; lra).
    split; [exact Hlt |].
    assert (Hcube : (y2 - y1) ^ 3 < 0).
    { replace ((y2 - y1) ^ 3) with (- ((y1 - y2) ^ 3)) by ring.
      assert (0 < (y1 - y2) ^ 3) by (apply pow_lt; lra). lra. }
    unfold Rdiv. nra.
  - assert (Hgt : y1 < y2) by (apply Hup; lra).
    split; [exact Hgt |].
    apply Rmult_lt_0_compat; [apply pow_lt; lra | exact Hden].
Qed.

Lemma flow_regime_decides_jump_direction_witness :
  exists Fr y2 dE,
    froude_number (RectangularChannel 4) 1 10 = Returns Fr /\
    sequent_depth_rectangular 1 10 4 = Returns y2 /\
    energy_loss_jump (RectangularChannel 4) 1 y2 10 = Returns dE /\
    (flow_regime Fr = "supercritical"%string -> 1 < y2 /\ 0 < dE) /\
    (flow_regime Fr = "subcritical"%string -> y2 < 1 /\ dE < 0).
Proof.
  apply flow_regime_decides_jump_direction; lra.
Defined.
